(** * FWTX Wiki API: the startup/shutdown lifecycle of [src/wiki.py]

    A shallow embedding of the [lifespan] context manager and of the
    [initialize_graphiti] background coroutine, with the properties of the
    lifecycle proved over it.

    - [Str]      : [str.lower] and the comparison with the literal "true";
    - [Os]       : [os.environ] as a finite map and [os.getenv];
    - [Py]       : exceptions, the outcome of a collaborator call, and a
                   small state-and-exception monad with [try/except Exception];
    - [Wiki]     : the code of [src/wiki.py];
    - [Asyncio]  : the async-generator protocol behind [@asynccontextmanager]
                   and one turn of the event loop over the scheduled tasks;
    - [Records]  : what each phase writes to the journal, for the lemmas;
    - [Sample]   : a few environments and collaborators to run the code on. *)

From Stdlib Require Import String Ascii List Bool NArith Lia.
From stdpp Require Import base gmap strings.
Import ListNotations.

(** ** Strings *)

Module Str.

(** [str.lower] on one character.  A Python [str] is a sequence of code
    points; here a string is the sequence of its UTF-8 bytes, and only the
    ASCII capitals are mapped.  The code below only ever compares the
    lowered string with the ASCII literal "true", and no character outside
    ASCII lowers to one of [t], [r], [u], [e], so the comparison is the
    same in both readings. *)
Definition lower_char (c : ascii) : ascii :=
  let n := N_of_ascii c in
  if (65 <=? n)%N && (n <=? 90)%N then ascii_of_N (n + 32) else c.

Fixpoint lower (s : string) : string :=
  match s with
  | EmptyString => EmptyString
  | String c s' => String (lower_char c) (lower s')
  end.

(** The recurring test [value.lower() == "true"]. *)
Definition is_true_literal (value : string) : bool :=
  String.eqb (lower value) "true".

(** Two characters that are the same letter up to ASCII case. *)
Definition is_upper (c : ascii) : bool :=
  let n := N_of_ascii c in (65 <=? n)%N && (n <=? 90)%N.

Definition same_char_ignoring_case (c d : ascii) : Prop :=
  c = d
  \/ (is_upper c = true /\ N_of_ascii d = (N_of_ascii c + 32)%N)
  \/ (is_upper d = true /\ N_of_ascii c = (N_of_ascii d + 32)%N).

(** Equality of two strings up to ASCII case, character by character. *)
Fixpoint equal_ignoring_case (s t : string) : Prop :=
  match s, t with
  | EmptyString, EmptyString => True
  | String c s', String d t' =>
      same_char_ignoring_case c d /\ equal_ignoring_case s' t'
  | _, _ => False
  end.

(** A string without any ASCII capital. *)
Fixpoint no_capital (t : string) : bool :=
match t with
| EmptyString => true
| String d t' => negb (is_upper d) && no_capital t'
end.

End Str.

(** ** The process environment *)

Module Os.

(** [os.getenv(key, default)]: the value of the variable when it is set,
    the default otherwise.  A variable set to the empty string is set. *)
Definition getenv (environ : gmap string string) (key default : string)
  : string :=
  match environ !! key with
  | Some value => value
  | None => default
  end.

(** [os.getenv(key, "false").lower() == "true"], the way both boolean
    flags of [lifespan] are read. *)
Definition flag (environ : gmap string string) (key : string) : bool :=
  Str.is_true_literal (getenv environ key "false").

End Os.

(** ** Python effects: exceptions, collaborator calls, the journal *)

Module Py.

(** An exception object.  [except Exception] separates two families: the
    instances of [Exception] (every error: [RuntimeError], [ValueError],
    [MemoryError], [RecursionError], ...) and the few classes that derive
    from [BaseException] directly and are not errors but requests to exit
    or unwind ([SystemExit], [KeyboardInterrupt], [GeneratorExit],
    [asyncio.CancelledError]). *)
Inductive pyexc : Type :=
| Error (cls msg : string)
| Signal (cls msg : string).

(** [isinstance(e, Exception)] *)
Definition isinstance_Exception (e : pyexc) : bool :=
  match e with
  | Error _ _ => true
  | Signal _ _ => false
  end.

(** [str(e)], as the f-strings of the log messages format it. *)
Definition str (e : pyexc) : string :=
  match e with
  | Error _ msg => msg
  | Signal _ msg => msg
  end.

(** [str(b)] for a [bool]. *)
Definition str_bool (b : bool) : string := if b then "True" else "False".

(** What a call into a collaborator does: it returns, it raises, or it
    never comes back (a synchronous call that blocks, an awaited coroutine
    that stays suspended for ever). *)
Inductive outcome : Type :=
| Returns
| Raises (e : pyexc)
| NeverReturns.

Inductive level : Type := INFO | WARNING | ERROR.

Inductive callee : Type :=
| Graphiti_init (load_initial_data_flag : bool) (sync_mode : string)
| Start_sync_scheduler
| Stop_sync_scheduler.

(** What the process does that can be observed from outside: the records
    it hands to [logger], the calls it makes into its collaborators, and
    the bulk load of the knowledge index. *)
Inductive event : Type :=
| Log (lvl : level) (msg : string)
| Call (f : callee)
| BulkLoad (sync_mode : string).

(** A coroutine object: the call [initialize_graphiti(a, b)] of an
    [async def] builds it and runs nothing of the body. *)
Inductive coroutine : Type :=
| InitializeGraphiti (load_initial_data : bool) (sync_mode : string).

(** The state of a task once the event loop has stepped it. *)
Inductive task_state : Type :=
| Finished
| Failed (e : pyexc)
| Waiting.

(** The state of the async generator behind [lifespan]. *)
Inductive gen_state : Type :=
| GEN_CREATED
| GEN_RUNNING
| GEN_SUSPENDED
| GEN_CLOSED.

Record process : Type := {
  journal : list event;
  ready : list coroutine;
  tasks : list (coroutine * task_state);
  lifespan_gen : gen_state
}.

Definition with_journal (p : process) (j : list event) : process :=
  {| journal := j; ready := ready p; tasks := tasks p;
     lifespan_gen := lifespan_gen p |}.

Definition with_ready (p : process) (r : list coroutine) : process :=
  {| journal := journal p; ready := r; tasks := tasks p;
     lifespan_gen := lifespan_gen p |}.

Definition with_tasks (p : process) (t : list (coroutine * task_state))
  : process :=
  {| journal := journal p; ready := ready p; tasks := t;
     lifespan_gen := lifespan_gen p |}.

Definition with_gen (p : process) (g : gen_state) : process :=
  {| journal := journal p; ready := ready p; tasks := tasks p;
     lifespan_gen := g |}.

(** How a piece of code ends: it runs to its end, an exception leaves it,
    or control never leaves it. *)
Inductive result (A : Type) : Type :=
| Done (a : A)
| Raised (e : pyexc)
| Blocked.
Arguments Done {A} a.
Arguments Raised {A} e.
Arguments Blocked {A}.

(** Code that runs in a process: it changes the process and ends in a
    [result].  The process is returned in every case, since what was
    logged before an exception stays logged. *)
Definition M (A : Type) : Type := process -> process * result A.

Definition ret {A} (a : A) : M A := fun p => (p, Done a).

Definition bind {A B} (m : M A) (k : A -> M B) : M B :=
  fun p =>
    match m p with
    | (p', Done a) => k a p'
    | (p', Raised e) => (p', Raised e)
    | (p', Blocked) => (p', Blocked)
    end.

Definition seq {A} (m : M unit) (k : M A) : M A := bind m (fun _ => k).

Definition pass : M unit := ret tt.

Definition emit (ev : event) : M unit :=
  fun p => (with_journal p (journal p ++ [ev]), Done tt).

Definition logger_info (msg : string) : M unit := emit (Log INFO msg).
Definition logger_warning (msg : string) : M unit := emit (Log WARNING msg).
Definition logger_error (msg : string) : M unit := emit (Log ERROR msg).

(** The end of a call into a collaborator. *)
Definition settle (o : outcome) : M unit :=
  fun p =>
    match o with
    | Returns => (p, Done tt)
    | Raises e => (p, Raised e)
    | NeverReturns => (p, Blocked)
    end.

(** [asyncio.create_task(coro)], called from inside the running loop: the
    coroutine is queued to be stepped at the next turn of the loop; nothing
    of it runs now, and the caller keeps the control. *)
Definition create_task (c : coroutine) : M unit :=
  fun p => (with_ready p (ready p ++ [c]), Done tt).

(** [try: body  except Exception as e: handler(e)].  Only instances of
    [Exception] are handled; anything else goes through. *)
Definition try_except_Exception (body : M unit) (handler : pyexc -> M unit)
  : M unit :=
  fun p =>
    match body p with
    | (p', Raised e) =>
        if isinstance_Exception e then handler e p' else (p', Raised e)
    | r => r
    end.

(** A call that comes back to its caller, with a value or with an error:
    it neither blocks for ever nor raises a request to exit. *)
Definition settles (o : outcome) : Prop :=
match o with
| Returns => True
| Raises (Error _ _) => True
| Raises (Signal _ _) => False
| NeverReturns => False
end.

(** Python truthiness of a string: non-empty. *)
Definition truthy (s : string) : bool :=
  match s with
  | EmptyString => false
  | String _ _ => true
  end.

End Py.

Declare Scope py_scope.
Delimit Scope py_scope with py.
Notation "c1 ;; c2" := (Py.seq c1 c2)
  (at level 100, c2 at level 200, right associativity) : py_scope.

(** ** The program *)

Module Wiki.
Import Py.
Local Open Scope py_scope.

(** [src.config.settings]: the fields [lifespan] reads, taken as given;
    a string field is falsy when it is empty. *)
Record Settings : Type := {
  ALLOWED_ORIGINS : string;
  DOCS_ENABLED : bool;
  API_KEY : string;
  OPENAI_API_BASE : string;
  OPENAI_API_KEY : string;
  OPENAI_MODEL : string
}.

(** The collaborators of [lifespan], by what a call to each does.  The
    index initializer may behave differently for different arguments. *)
Record collaborators : Type := {
  init_outcome : bool -> string -> outcome;
  start_outcome : outcome;
  stop_outcome : outcome
}.

(** The same collaborators with another index initializer. *)
Definition with_init_outcome (world : collaborators)
  (behaviour : bool -> string -> outcome) : collaborators :=
{| init_outcome := behaviour;
   start_outcome := start_outcome world;
   stop_outcome := stop_outcome world |}.

Section Program.
Variable settings : Settings.
Variable environ : gmap string string.
Variable world : collaborators.

(** Modelled from the spec: the index initializer
    [src.services.graphiti.index.init], whose code is missing.  Following
    section 4.3 of the specification, the gateway runs whatever the intent
    is, and performs the bulk load only when loading was requested.  How
    the call ends is left to [world]. *)
Definition graphiti_init (load_initial_data_flag : bool)
    (sync_mode : string) : M unit :=
  emit (Call (Graphiti_init load_initial_data_flag sync_mode)) ;;
  (if load_initial_data_flag then emit (BulkLoad sync_mode) else pass) ;;
  settle (init_outcome world load_initial_data_flag sync_mode).

(** [src.services.sync.scheduler.start_sync_scheduler] and
    [stop_sync_scheduler]: synchronous calls into the scheduler. *)
Definition start_sync_scheduler : M unit :=
  emit (Call Start_sync_scheduler) ;; settle (start_outcome world).

Definition stop_sync_scheduler : M unit :=
  emit (Call Stop_sync_scheduler) ;; settle (stop_outcome world).

(** [async def initialize_graphiti(load_initial_data, sync_mode)] *)
Definition initialize_graphiti (load_initial_data : bool)
    (sync_mode : string) : M unit :=
  try_except_Exception
    (graphiti_init load_initial_data sync_mode ;;
     logger_info "Graphiti initialization completed successfully" ;;
     if load_initial_data
     then logger_info ("Initial data loaded using " +:+ sync_mode +:+ " mode")
     else pass)
    (fun e => logger_error ("Graphiti initialization failed: " +:+ str e)).

(** The two values [lifespan] reads for the index initializer. *)
Definition load_initial_data : bool := Os.flag environ "LOAD_INITIAL_DATA".

Definition sync_mode : string := Os.getenv environ "SYNC_MODE" "initial".

Definition scheduler_enabled : bool :=
  Os.flag environ "ENABLE_SYNC_SCHEDULER".

(** [lifespan], from its first line to the [yield]. *)
Definition lifespan_startup : M unit :=
  logger_info "Starting up FWTX NextGen Wiki API" ;;
  logger_info "--- Application Settings ---" ;;
  logger_info ("Allowed Origins: " +:+
    (if truthy (ALLOWED_ORIGINS settings) then ALLOWED_ORIGINS settings
     else "[Not Set - Allowing all by default in middleware]")) ;;
  logger_info ("Docs Enabled: " +:+ str_bool (DOCS_ENABLED settings)) ;;
  logger_info ("API Key: " +:+
    (if truthy (API_KEY settings) then "Set"
     else "Not Set - Authentication Disabled")) ;;
  logger_info ("OpenAI API Base: " +:+ OPENAI_API_BASE settings) ;;
  logger_info ("OpenAI API Key: " +:+
    (if truthy (OPENAI_API_KEY settings) then "Set" else "Not Set")) ;;
  logger_info ("OpenAI Model: " +:+ OPENAI_MODEL settings) ;;
  logger_info "--------------------------" ;;
  (if negb (truthy (API_KEY settings))
   then logger_warning
          "API_KEY not set in environment. Authentication is disabled."
   else pass) ;;
  try_except_Exception
    (logger_info "Initializing Graphiti knowledge graph..." ;;
     create_task (InitializeGraphiti load_initial_data sync_mode) ;;
     logger_info ("Graphiti initialization started in background (mode: "
                  +:+ sync_mode +:+ ")"))
    (fun e =>
       logger_error ("Failed to start Graphiti initialization: " +:+ str e)) ;;
  (if scheduler_enabled
   then try_except_Exception
          (logger_info "Starting data sync scheduler..." ;;
           start_sync_scheduler ;;
           logger_info "Data sync scheduler started")
          (fun e =>
             logger_error ("Failed to start sync scheduler: " +:+ str e))
   else pass).

(** [lifespan], from the [yield] to its last line. *)
Definition lifespan_shutdown : M unit :=
  logger_info "Shutting down FWTX Wiki API" ;;
  try_except_Exception
    stop_sync_scheduler
    (fun e => logger_error ("Error stopping sync scheduler: " +:+ str e)).

End Program.

End Wiki.

(** ** The async generator and the event loop *)

Module Asyncio.
Import Py.

Section Host.
Variable settings : Wiki.Settings.
Variable environ : gmap string string.
Variable world : Wiki.collaborators.

(** What resuming a generator gives when no exception leaves it. *)
Inductive resumed : Type :=
| Yielded
| StopAsyncIteration.

(** [anext(gen)] on the async generator of [lifespan].  A fresh generator
    runs to the [yield]; a suspended one runs from the [yield] to the end
    and is closed; a closed one runs nothing.  An exception that leaves the
    body closes the generator.  When the body blocks, the only thread of the
    process is inside it and nothing is resumed any more. *)
Definition anext : M resumed :=
  fun p =>
    match lifespan_gen p with
    | GEN_CREATED =>
        match Wiki.lifespan_startup settings environ world
                (with_gen p GEN_RUNNING) with
        | (p', Done _) => (with_gen p' GEN_SUSPENDED, Done Yielded)
        | (p', Raised e) => (with_gen p' GEN_CLOSED, Raised e)
        | (p', Blocked) => (p', Blocked)
        end
    | GEN_SUSPENDED =>
        match Wiki.lifespan_shutdown world (with_gen p GEN_RUNNING) with
        | (p', Done _) => (with_gen p' GEN_CLOSED, Done StopAsyncIteration)
        | (p', Raised e) => (with_gen p' GEN_CLOSED, Raised e)
        | (p', Blocked) => (p', Blocked)
        end
    | GEN_RUNNING => (p, Blocked)
    | GEN_CLOSED => (p, Done StopAsyncIteration)
    end.

(** [gen.aclose()] on a generator suspended at a [yield] that no [try]
    encloses: the generator is closed and nothing of the body runs. *)
Definition aclose : M unit :=
  fun p =>
    match lifespan_gen p with
    | GEN_RUNNING => (p, Blocked)
    | _ => (with_gen p GEN_CLOSED, Done tt)
    end.

(** [__aenter__] of the context manager [@asynccontextmanager] builds. *)
Definition aenter : M unit :=
  fun p =>
    match anext p with
    | (p', Done Yielded) => (p', Done tt)
    | (p', Done StopAsyncIteration) =>
        (p', Raised (Error "RuntimeError" "generator didn't yield"))
    | (p', Raised e) => (p', Raised e)
    | (p', Blocked) => (p', Blocked)
    end.

(** [__aexit__(None, None, None)]: the body of the [async with] ended
    without an exception. *)
Definition aexit : M bool :=
  fun p =>
    match anext p with
    | (p', Done StopAsyncIteration) => (p', Done false)
    | (p', Done Yielded) =>
        match aclose p' with
        | (p'', Done _) =>
            (p'', Raised (Error "RuntimeError" "generator didn't stop"))
        | (p'', Raised e) => (p'', Raised e)
        | (p'', Blocked) => (p'', Blocked)
        end
    | (p', Raised e) => (p', Raised e)
    | (p', Blocked) => (p', Blocked)
    end.

(** The body of a coroutine object. *)
Definition run_coroutine (c : coroutine) : M unit :=
  match c with
  | InitializeGraphiti load_initial_data sync_mode =>
      Wiki.initialize_graphiti world load_initial_data sync_mode
  end.

(** The loop steps one task.  A coroutine that ends ends its task; one an
    exception leaves fails its task; one that awaits something that never
    comes stays waiting, and the loop goes on with the others. *)
Definition task_state_of (r : result unit) : task_state :=
  match r with
  | Done _ => Finished
  | Raised e => Failed e
  | Blocked => Waiting
  end.

Definition step_task (c : coroutine) (p : process) : process :=
  let (p', r) := run_coroutine c p in
  with_tasks p' (tasks p' ++ [(c, task_state_of r)]).

Fixpoint step_all (cs : list coroutine) (p : process) : process :=
  match cs with
  | [] => p
  | c :: cs' => step_all cs' (step_task c p)
  end.

(** One turn of the event loop: every task that is ready is stepped. *)
Definition run_ready (p : process) : process :=
  step_all (ready p) (with_ready p []).

(** The process before [lifespan] is entered. *)
Definition boot : process :=
  {| journal := []; ready := []; tasks := []; lifespan_gen := GEN_CREATED |}.

(** The startup path: the host enters [lifespan]. *)
Definition startup : process * result unit := aenter boot.

(** The process is at the [yield] of [lifespan]: it serves requests. *)
Definition serving_ready (p : process) : Prop :=
  lifespan_gen p = GEN_SUSPENDED.

(** The loop turns while the process serves. *)
Definition serve (turns : nat) (p : process) : process :=
  Nat.iter turns run_ready p.

(** The shutdown trigger: the host leaves the [async with]. *)
Definition shutdown (p : process) : process * result bool := aexit p.

(** A whole life of the process: startup, some turns of the loop, and the
    shutdown triggered [triggers] times.  A process whose startup did not
    reach the [yield] goes no further. *)
Definition lifecycle (turns triggers : nat) : process :=
  match startup with
  | (p, Done _) => Nat.iter triggers (fun q => fst (shutdown q)) (serve turns p)
  | (p, _) => p
  end.

End Host.

(** Counting in a journal. *)
Definition is_call (f : callee -> bool) (ev : event) : bool :=
  match ev with
  | Call g => f g
  | _ => false
  end.

Definition is_init (f : callee) : bool :=
  match f with Graphiti_init _ _ => true | _ => false end.

Definition is_start (f : callee) : bool :=
  match f with Start_sync_scheduler => true | _ => false end.

Definition is_stop (f : callee) : bool :=
  match f with Stop_sync_scheduler => true | _ => false end.

Definition is_bulk_load (ev : event) : bool :=
  match ev with BulkLoad _ => true | _ => false end.

Definition count (f : event -> bool) (j : list event) : nat :=
  length (List.filter f j).

Definition init_calls (j : list event) : nat := count (is_call is_init) j.
Definition start_calls (j : list event) : nat := count (is_call is_start) j.
Definition stop_calls (j : list event) : nat := count (is_call is_stop) j.
Definition bulk_loads (j : list event) : nat := count is_bulk_load j.

End Asyncio.

(** ** What each phase writes

    The records and calls each part of the program adds to the journal, and
    how the part ends, written out once so that the lemmas on the phases can
    be stated as equations. *)

Module Records.
Import Py.

Section Records.
Variable settings : Wiki.Settings.
Variable environ : gmap string string.
Variable world : Wiki.collaborators.

(** The settings banner at the top of [lifespan]. *)
Definition banner : list event :=
  [ Log INFO "Starting up FWTX NextGen Wiki API";
    Log INFO "--- Application Settings ---";
    Log INFO ("Allowed Origins: " +:+
      (if truthy (Wiki.ALLOWED_ORIGINS settings)
       then Wiki.ALLOWED_ORIGINS settings
       else "[Not Set - Allowing all by default in middleware]"));
    Log INFO ("Docs Enabled: " +:+ str_bool (Wiki.DOCS_ENABLED settings));
    Log INFO ("API Key: " +:+
      (if truthy (Wiki.API_KEY settings) then "Set"
       else "Not Set - Authentication Disabled"));
    Log INFO ("OpenAI API Base: " +:+ Wiki.OPENAI_API_BASE settings);
    Log INFO ("OpenAI API Key: " +:+
      (if truthy (Wiki.OPENAI_API_KEY settings) then "Set" else "Not Set"));
    Log INFO ("OpenAI Model: " +:+ Wiki.OPENAI_MODEL settings);
    Log INFO "--------------------------" ]
  ++ (if truthy (Wiki.API_KEY settings) then []
      else [ Log WARNING
               "API_KEY not set in environment. Authentication is disabled." ]).

(** The block that schedules the index initializer. *)
Definition graphiti_block : list event :=
  [ Log INFO "Initializing Graphiti knowledge graph...";
    Log INFO ("Graphiti initialization started in background (mode: "
              +:+ Wiki.sync_mode environ +:+ ")") ].

(** The block that starts the scheduler, when it is enabled. *)
Definition scheduler_block : list event * result unit :=
  if Wiki.scheduler_enabled environ then
    match Wiki.start_outcome world with
    | Returns =>
        ([ Log INFO "Starting data sync scheduler...";
           Call Start_sync_scheduler;
           Log INFO "Data sync scheduler started" ], Done tt)
    | Raises (Error cls msg) =>
        ([ Log INFO "Starting data sync scheduler...";
           Call Start_sync_scheduler;
           Log ERROR ("Failed to start sync scheduler: " +:+ msg) ], Done tt)
    | Raises (Signal cls msg) =>
        ([ Log INFO "Starting data sync scheduler...";
           Call Start_sync_scheduler ], Raised (Signal cls msg))
    | NeverReturns =>
        ([ Log INFO "Starting data sync scheduler...";
           Call Start_sync_scheduler ], Blocked)
    end
  else ([], Done tt).

Definition startup_records : list event :=
  banner ++ graphiti_block ++ fst scheduler_block.

(** The code after the [yield]. *)
Definition shutdown_block : list event * result unit :=
  match Wiki.stop_outcome world with
  | Returns =>
      ([ Log INFO "Shutting down FWTX Wiki API"; Call Stop_sync_scheduler ],
       Done tt)
  | Raises (Error cls msg) =>
      ([ Log INFO "Shutting down FWTX Wiki API"; Call Stop_sync_scheduler;
         Log ERROR ("Error stopping sync scheduler: " +:+ msg) ], Done tt)
  | Raises (Signal cls msg) =>
      ([ Log INFO "Shutting down FWTX Wiki API"; Call Stop_sync_scheduler ],
       Raised (Signal cls msg))
  | NeverReturns =>
      ([ Log INFO "Shutting down FWTX Wiki API"; Call Stop_sync_scheduler ],
       Blocked)
  end.

(** The body of [initialize_graphiti]. *)
Definition initializer_block (load_initial_data : bool) (sync_mode : string)
  : list event * result unit :=
  let called :=
    Call (Graphiti_init load_initial_data sync_mode)
    :: (if load_initial_data then [BulkLoad sync_mode] else []) in
  match Wiki.init_outcome world load_initial_data sync_mode with
  | Returns =>
      (called
       ++ Log INFO "Graphiti initialization completed successfully"
       :: (if load_initial_data
           then [ Log INFO ("Initial data loaded using " +:+ sync_mode
                            +:+ " mode") ]
           else []), Done tt)
  | Raises (Error cls msg) =>
      (called ++ [ Log ERROR ("Graphiti initialization failed: " +:+ msg) ],
       Done tt)
  | Raises (Signal cls msg) => (called, Raised (Signal cls msg))
  | NeverReturns => (called, Blocked)
  end.

End Records.

(** The generator after a phase that ended in [r], where [reached] is the
    state it is in when the phase runs to its end. *)
Definition gen_after (r : result unit) (reached : gen_state) : gen_state :=
  match r with
  | Done _ => reached
  | Raised _ => GEN_CLOSED
  | Blocked => GEN_RUNNING
  end.

End Records.

(** ** Sample configurations and collaborators *)

Module Sample.
Import Py.

Definition settings : Wiki.Settings :=
  {| Wiki.ALLOWED_ORIGINS := "https://wiki.fwtx.city";
     Wiki.DOCS_ENABLED := true;
     Wiki.API_KEY := "";
     Wiki.OPENAI_API_BASE := "https://api.openai.com/v1";
     Wiki.OPENAI_API_KEY := "sk-test";
     Wiki.OPENAI_MODEL := "gpt-4o" |}.

(** Nothing is set: every variable takes its default. *)
Definition env_defaults : gmap string string := ∅.

(** Live sync with the initial load and the scheduler. *)
Definition env_live : gmap string string :=
  {[ "LOAD_INITIAL_DATA" := "true";
     "SYNC_MODE" := "live";
     "ENABLE_SYNC_SCHEDULER" := "TRUE" ]}.

(** A sync mode that is neither "initial" nor "live". *)
Definition env_bogus : gmap string string :=
  {[ "LOAD_INITIAL_DATA" := "true"; "SYNC_MODE" := "bogus" ]}.

(** Every collaborator returns. *)
Definition world_ok : Wiki.collaborators :=
  {| Wiki.init_outcome := fun _ _ => Returns;
     Wiki.start_outcome := Returns;
     Wiki.stop_outcome := Returns |}.

(** The index initializer never returns. *)
Definition world_hanging : Wiki.collaborators :=
  {| Wiki.init_outcome := fun _ _ => NeverReturns;
     Wiki.start_outcome := Returns;
     Wiki.stop_outcome := Returns |}.

(** Every collaborator raises an error. *)
Definition world_failing : Wiki.collaborators :=
  {| Wiki.init_outcome := fun _ _ => Raises (Error "ConnectionError" "neo4j is down");
     Wiki.start_outcome := Raises (Error "RuntimeError" "no job store");
     Wiki.stop_outcome := Raises (Error "RuntimeError" "scheduler is not running") |}.

End Sample.

(** ** More of [str]: [split] and [strip] *)

Module Text.

Definition byte (c : ascii) : N := N_of_ascii c.

(** [str.isspace] for one code point, on the UTF-8 bytes that encode it.
    The white space of [str.strip()] is U+0009..U+000D, U+001C..U+0020,
    U+0085, U+00A0, U+1680, U+2000..U+200A, U+2028, U+2029, U+202F, U+205F
    and U+3000: one byte for the first two ranges, two bytes ([C2 85],
    [C2 A0]) for the next two, three bytes for the others. *)
Definition is_space1 (c : ascii) : bool :=
  ((9 <=? byte c)%N && (byte c <=? 13)%N)
  || ((28 <=? byte c)%N && (byte c <=? 32)%N).

Definition is_space2 (c d : ascii) : bool :=
  (byte c =? 194)%N && ((byte d =? 133)%N || (byte d =? 160)%N).

Definition is_space3 (c d e : ascii) : bool :=
  ((byte c =? 225)%N && (byte d =? 154)%N && (byte e =? 128)%N)
  || ((byte c =? 226)%N && (byte d =? 128)%N
      && (((128 <=? byte e)%N && (byte e <=? 138)%N)
          || (byte e =? 168)%N || (byte e =? 169)%N || (byte e =? 175)%N))
  || ((byte c =? 226)%N && (byte d =? 129)%N && (byte e =? 159)%N)
  || ((byte c =? 227)%N && (byte d =? 128)%N && (byte e =? 128)%N).

(** [s.lstrip()]: the white space the string starts with is dropped. *)
Fixpoint lstrip (s : string) : string :=
  match s with
  | EmptyString => EmptyString
  | String c s1 =>
      if is_space1 c then lstrip s1
      else
        match s1 with
        | EmptyString => s
        | String d s2 =>
            if is_space2 c d then lstrip s2
            else
              match s2 with
              | EmptyString => s
              | String e s3 => if is_space3 c d e then lstrip s3 else s
              end
        end
  end.

(** The string is made of white space only (the empty string is). *)
Fixpoint all_space (s : string) : bool :=
  match s with
  | EmptyString => true
  | String c s1 =>
      if is_space1 c then all_space s1
      else
        match s1 with
        | EmptyString => false
        | String d s2 =>
            if is_space2 c d then all_space s2
            else
              match s2 with
              | EmptyString => false
              | String e s3 => is_space3 c d e && all_space s3
              end
        end
  end.

(** [s.rstrip()]: the string is cut where what follows is white space
    only. *)
Fixpoint rstrip (s : string) : string :=
  match s with
  | EmptyString => EmptyString
  | String c s1 => if all_space s then EmptyString else String c (rstrip s1)
  end.

(** [s.strip()] *)
Definition strip (s : string) : string := rstrip (lstrip s).

(** [s.split(sep)] for a separator of one character: the pieces between
    the separators, empty pieces included; the empty string gives one
    empty piece. *)
Fixpoint split (sep : ascii) (s : string) : list string :=
  match s with
  | EmptyString => [EmptyString]
  | String c s1 =>
      if Ascii.eqb c sep then EmptyString :: split sep s1
      else
        match split sep s1 with
        | piece :: pieces => String c piece :: pieces
        | [] => [String c EmptyString]
        end
  end.

(** [sep.join(pieces)], the inverse of [split] the properties refer to. *)
Fixpoint join (sep : ascii) (pieces : list string) : string :=
  match pieces with
  | [] => EmptyString
  | [piece] => piece
  | piece :: rest => piece +:+ String sep (join sep rest)
  end.

(** [c in s] *)
Fixpoint contains (c : ascii) (s : string) : bool :=
  match s with
  | EmptyString => false
  | String d s1 => Ascii.eqb d c || contains c s1
  end.

(** The string starts with a white space character. *)
Definition starts_with_space (s : string) : bool :=
  match s with
  | EmptyString => false
  | String c s1 =>
      is_space1 c
      || match s1 with
         | EmptyString => false
         | String d s2 =>
             is_space2 c d
             || match s2 with
                | EmptyString => false
                | String e _ => is_space3 c d e
                end
         end
  end.

End Text.

(** ** The application object and its middleware *)

Module App.
Import Py.


(** The arguments of [app.add_middleware(CORSMiddleware, ...)]. *)
Record CORSMiddleware : Type := {
  allow_origins : list string;
  allow_credentials : bool;
  allow_methods : list string;
  allow_headers : list string
}.

Section App.
Variable settings : Wiki.Settings.


(** [[origin.strip() for origin in settings.ALLOWED_ORIGINS.split(",")
      if origin.strip()] if settings.ALLOWED_ORIGINS else ["*"]] *)
Definition origins : list string :=
  if truthy (Wiki.ALLOWED_ORIGINS settings)
  then List.map Text.strip
         (List.filter (fun origin => truthy (Text.strip origin))
            (Text.split "," (Wiki.ALLOWED_ORIGINS settings)))
  else ["*"].

Definition cors : CORSMiddleware :=
  {| allow_origins := origins;
     allow_credentials := true;
     allow_methods := ["*"];
     allow_headers := ["*"] |}.

End App.

(** An origin as the middleware wants it: not empty, without a comma, and
    without white space around it. *)
Definition clean_origin (origin : string) : Prop :=
  origin <> ""
  /\ Text.strip origin = origin
  /\ Text.contains "," origin = false.

End App.

(** ** More samples *)

Module Fixture.
Import Py.

Definition with_origins (allowed : string) : Wiki.Settings :=
  {| Wiki.ALLOWED_ORIGINS := allowed;
     Wiki.DOCS_ENABLED := false;
     Wiki.API_KEY := "secret";
     Wiki.OPENAI_API_BASE := "https://api.openai.com/v1";
     Wiki.OPENAI_API_KEY := "sk-test";
     Wiki.OPENAI_MODEL := "gpt-4o" |}.

(** The scheduler is enabled, the initial load is not. *)
Definition env_scheduler : gmap string string :=
  {[ "ENABLE_SYNC_SCHEDULER" := "true" ]}.

(** The scheduler start is interrupted. *)
Definition world_interrupted : Wiki.collaborators :=
  {| Wiki.init_outcome := fun _ _ => Raises (Signal "CancelledError" "");
     Wiki.start_outcome := Raises (Signal "KeyboardInterrupt" "");
     Wiki.stop_outcome := Raises (Signal "SystemExit" "1") |}.

(** The scheduler start never returns. *)
Definition world_stuck : Wiki.collaborators :=
  {| Wiki.init_outcome := fun _ _ => Returns;
     Wiki.start_outcome := NeverReturns;
     Wiki.stop_outcome := Returns |}.


End Fixture.

(** ** Reading a journal by level *)

Module Journal.
Import Py.

Definition is_error_log (ev : event) : bool :=
  match ev with Log ERROR _ => true | _ => false end.

Definition is_warning_log (ev : event) : bool :=
  match ev with Log WARNING _ => true | _ => false end.

Definition error_logs (j : list event) : nat := Asyncio.count is_error_log j.
Definition warning_logs (j : list event) : nat :=
  Asyncio.count is_warning_log j.

(** The call ends in an error, one [except Exception] handles. *)
Definition fails (o : outcome) : bool :=
  match o with
  | Raises (Error _ _) => true
  | _ => false
  end.

Definition one_if (b : bool) : nat := if b then 1 else 0.

End Journal.

(** * Properties *)

(** ** Reading a boolean flag *)

Section Flags.
Import Str.

Lemma lower_char_unfold (c : ascii) :
  lower_char c =
  if is_upper c then ascii_of_N (N_of_ascii c + 32) else c.
Proof. reflexivity. Qed.

Lemma is_upper_bounds (c : ascii) :
  is_upper c = true <-> (65 <= N_of_ascii c <= 90)%N.
Proof.
  unfold is_upper; cbv zeta.
  rewrite andb_true_iff, !N.leb_le. tauto.
Qed.

(** Lowering a character gives a character that is not a capital exactly
    when the two are the same letter up to case. *)
Lemma lower_char_spec (c d : ascii) :
  is_upper d = false ->
  lower_char c = d <-> same_char_ignoring_case c d.
Proof.
  intros Hd. rewrite lower_char_unfold. unfold same_char_ignoring_case.
  destruct (is_upper c) eqn:Hc.
  - pose proof (proj1 (is_upper_bounds c) Hc) as Hb.
    split.
    + intros <-. right; left. split; [reflexivity|].
      apply N_ascii_embedding. lia.
    + intros [-> | [[_ Hn] | [Hu _]]].
      * congruence.
      * rewrite <- Hn. apply ascii_N_embedding.
      * congruence.
  - split.
    + intros ->. now left.
    + intros [-> | [[Hu _] | [Hu _]]]; congruence.
Qed.

Lemma lower_eq_iff (t : string) :
  no_capital t = true ->
  forall s, lower s = t <-> equal_ignoring_case s t.
Proof.
  induction t as [|d t IH]; intros Ht s; destruct s as [|c s]; simpl.
  - tauto.
  - split; [discriminate | tauto].
  - split; [discriminate | tauto].
  - simpl in Ht. apply andb_true_iff in Ht as [Hd Ht].
    apply negb_true_iff in Hd.
    rewrite <- (lower_char_spec c d Hd), <- (IH Ht s).
    split.
    + intros H; injection H; auto.
    + intros [-> ->]; reflexivity.
Qed.

Lemma is_true_literal_spec (value : string) :
  is_true_literal value = true <-> equal_ignoring_case value "true".
Proof.
  unfold is_true_literal. rewrite String.eqb_eq.
  apply lower_eq_iff. reflexivity.
Qed.

Lemma flag_set (environ : gmap string string) (key value : string) :
  Os.flag (<[key := value]> environ) key = is_true_literal value.
Proof.
  unfold Os.flag, Os.getenv. now rewrite lookup_insert_eq.
Qed.

Lemma flag_unset (environ : gmap string string) (key : string) :
  environ !! key = None -> Os.flag environ key = false.
Proof.
  intros H. unfold Os.flag, Os.getenv. now rewrite H.
Qed.

End Flags.

(** C10: whatever string one of the two boolean variables is set to,
    [lifespan] takes the flag as enabled exactly when the string is the
    literal "true" up to the case of its letters; "1", "yes", "on", the
    empty string and "true" with a blank before or after it all leave the
    flag disabled. *)
Theorem flag_enabled_iff_true_ignoring_case :
  forall (environ : gmap string string) (value : string),
    (Wiki.load_initial_data (<["LOAD_INITIAL_DATA" := value]> environ) = true
     <-> Str.equal_ignoring_case value "true")
    /\ (Wiki.scheduler_enabled
          (<["ENABLE_SYNC_SCHEDULER" := value]> environ) = true
        <-> Str.equal_ignoring_case value "true")
    /\ Forall
         (fun v =>
            Wiki.load_initial_data (<["LOAD_INITIAL_DATA" := v]> environ)
            = false
            /\ Wiki.scheduler_enabled
                 (<["ENABLE_SYNC_SCHEDULER" := v]> environ) = false)
         ["1"; "yes"; "on"; ""; " true"; "true "; "false"; "truee"]
    /\ Forall
         (fun v =>
            Wiki.load_initial_data (<["LOAD_INITIAL_DATA" := v]> environ)
            = true
            /\ Wiki.scheduler_enabled
                 (<["ENABLE_SYNC_SCHEDULER" := v]> environ) = true)
         ["true"; "TRUE"; "True"; "tRuE"].
Proof.
  intros environ value.
  unfold Wiki.load_initial_data, Wiki.scheduler_enabled.
  split; [|split; [|split]].
  - rewrite flag_set. apply is_true_literal_spec.
  - rewrite flag_set. apply is_true_literal_spec.
  - repeat constructor; rewrite flag_set; reflexivity.
  - repeat constructor; rewrite flag_set; reflexivity.
Qed.

(** ** The phases, as equations *)

Section Phases.
Import Py Records.
Variable settings : Wiki.Settings.
Variable environ : gmap string string.
Variable world : Wiki.collaborators.

Ltac run_phase :=
  unfold seq, bind, pass, ret, logger_info, logger_warning, logger_error,
    emit, settle, create_task, try_except_Exception,
    with_journal, with_ready; simpl.

Ltac flatten_journal := repeat (rewrite <- app_assoc; simpl).

(** What [except Exception] lets through: an exception that is not an
    instance of [Exception] leaves the [try] as it entered it, and the
    handler does not run. *)
Lemma signal_leaves_try_except (body : M unit) (handler : pyexc -> M unit)
    (p p' : process) (cls msg : string) :
  body p = (p', Raised (Signal cls msg)) ->
  try_except_Exception body handler p = (p', Raised (Signal cls msg)).
Proof. unfold try_except_Exception. now intros ->. Qed.

(** Startup: the records of the three blocks are added, the coroutine of
    the index initializer is queued, and only the scheduler block decides
    how the phase ends. *)
Lemma lifespan_startup_run (p : process) :
  Wiki.lifespan_startup settings environ world p =
  ({| journal := journal p ++ startup_records settings environ world;
      ready := ready p
               ++ [InitializeGraphiti (Wiki.load_initial_data environ)
                                      (Wiki.sync_mode environ)];
      tasks := tasks p;
      lifespan_gen := lifespan_gen p |},
   snd (scheduler_block environ world)).
Proof.
  unfold Wiki.lifespan_startup, Wiki.start_sync_scheduler,
    startup_records, banner, graphiti_block, scheduler_block.
  run_phase.
  destruct (truthy (Wiki.API_KEY settings)); simpl;
    destruct (Wiki.scheduler_enabled environ); simpl;
    try (destruct (Wiki.start_outcome world) as [|[cls msg|cls msg]|]; simpl);
    flatten_journal; reflexivity.
Qed.

(** Shutdown. *)
Lemma lifespan_shutdown_run (p : process) :
  Wiki.lifespan_shutdown world p =
  ({| journal := journal p ++ fst (shutdown_block world);
      ready := ready p;
      tasks := tasks p;
      lifespan_gen := lifespan_gen p |},
   snd (shutdown_block world)).
Proof.
  unfold Wiki.lifespan_shutdown, Wiki.stop_sync_scheduler, shutdown_block.
  run_phase.
  destruct (Wiki.stop_outcome world) as [|[cls msg|cls msg]|]; simpl;
    flatten_journal; reflexivity.
Qed.

(** The background coroutine. *)
Lemma initialize_graphiti_run (load_initial_data : bool) (sync_mode : string)
    (p : process) :
  Wiki.initialize_graphiti world load_initial_data sync_mode p =
  ({| journal := journal p
                 ++ fst (initializer_block world load_initial_data sync_mode);
      ready := ready p;
      tasks := tasks p;
      lifespan_gen := lifespan_gen p |},
   snd (initializer_block world load_initial_data sync_mode)).
Proof.
  unfold Wiki.initialize_graphiti, Wiki.graphiti_init, initializer_block.
  run_phase.
  destruct load_initial_data; simpl;
    destruct (Wiki.init_outcome world _ sync_mode) as [|[cls msg|cls msg]|];
    simpl; flatten_journal; reflexivity.
Qed.

End Phases.

(** ** Counting calls in the records of a phase *)

Section Counting.
Import Py Records Asyncio.

Lemma count_app (f : event -> bool) (j k : list event) :
  count f (j ++ k) = count f j + count f k.
Proof. unfold count. now rewrite List.filter_app, length_app. Qed.

Lemma init_calls_app (j k : list event) :
  init_calls (j ++ k) = init_calls j + init_calls k.
Proof. apply count_app. Qed.

Lemma start_calls_app (j k : list event) :
  start_calls (j ++ k) = start_calls j + start_calls k.
Proof. apply count_app. Qed.

Lemma stop_calls_app (j k : list event) :
  stop_calls (j ++ k) = stop_calls j + stop_calls k.
Proof. apply count_app. Qed.

Lemma bulk_loads_app (j k : list event) :
  bulk_loads (j ++ k) = bulk_loads j + bulk_loads k.
Proof. apply count_app. Qed.

Lemma banner_counts settings (f : callee -> bool) :
  count (is_call f) (banner settings) = 0
  /\ count is_bulk_load (banner settings) = 0.
Proof.
  unfold banner. destruct (truthy (Wiki.API_KEY settings)); split; reflexivity.
Qed.

Lemma graphiti_block_counts environ (f : callee -> bool) :
  count (is_call f) (graphiti_block environ) = 0
  /\ count is_bulk_load (graphiti_block environ) = 0.
Proof. split; reflexivity. Qed.

Lemma scheduler_block_counts environ world :
  let j := fst (scheduler_block environ world) in
  init_calls j = 0 /\ stop_calls j = 0 /\ bulk_loads j = 0
  /\ start_calls j = (if Wiki.scheduler_enabled environ then 1 else 0).
Proof.
  unfold scheduler_block.
  destruct (Wiki.scheduler_enabled environ);
    [destruct (Wiki.start_outcome world) as [|[cls msg|cls msg]|]|];
    repeat split; reflexivity.
Qed.

Lemma startup_records_counts settings environ world :
  let j := startup_records settings environ world in
  init_calls j = 0 /\ stop_calls j = 0 /\ bulk_loads j = 0
  /\ start_calls j = (if Wiki.scheduler_enabled environ then 1 else 0).
Proof.
  cbv zeta. unfold init_calls, stop_calls, bulk_loads, start_calls,
    startup_records.
  rewrite !count_app.
  destruct (banner_counts settings is_init) as [-> ->].
  destruct (banner_counts settings is_stop) as [-> _].
  destruct (banner_counts settings is_start) as [-> _].
  destruct (graphiti_block_counts environ is_init) as [-> ->].
  destruct (graphiti_block_counts environ is_stop) as [-> _].
  destruct (graphiti_block_counts environ is_start) as [-> _].
  apply (scheduler_block_counts environ world).
Qed.

Lemma shutdown_block_counts world :
  let j := fst (shutdown_block world) in
  init_calls j = 0 /\ stop_calls j = 1 /\ bulk_loads j = 0
  /\ start_calls j = 0.
Proof.
  unfold shutdown_block.
  destruct (Wiki.stop_outcome world) as [|[cls msg|cls msg]|];
    repeat split; reflexivity.
Qed.

Lemma initializer_block_counts world load_initial_data sync_mode :
  let j := fst (initializer_block world load_initial_data sync_mode) in
  init_calls j = 1 /\ stop_calls j = 0
  /\ bulk_loads j = (if load_initial_data then 1 else 0)
  /\ start_calls j = 0.
Proof.
  unfold initializer_block.
  destruct load_initial_data;
    destruct (Wiki.init_outcome world _ sync_mode) as [|[cls msg|cls msg]|];
    repeat split; reflexivity.
Qed.

End Counting.

(** ** The life of the process, as equations *)

Section Lifecycle.
Import Py Records Asyncio.
Variable settings : Wiki.Settings.
Variable environ : gmap string string.
Variable world : Wiki.collaborators.

Let scheduled : coroutine :=
  InitializeGraphiti (Wiki.load_initial_data environ) (Wiki.sync_mode environ).

Lemma startup_run :
  startup settings environ world =
  ({| journal := startup_records settings environ world;
      ready := [scheduled];
      tasks := [];
      lifespan_gen := gen_after (snd (scheduler_block environ world))
                                GEN_SUSPENDED |},
   snd (scheduler_block environ world)).
Proof.
  unfold startup, aenter, anext, boot; simpl.
  rewrite lifespan_startup_run; simpl.
  destruct (snd (scheduler_block environ world)) as [[]| |]; reflexivity.
Qed.

Lemma scheduler_block_settles :
  (Wiki.scheduler_enabled environ = true -> settles (Wiki.start_outcome world)) ->
  snd (scheduler_block environ world) = Done tt.
Proof.
  unfold scheduler_block. intros H.
  destruct (Wiki.scheduler_enabled environ); [|reflexivity].
  specialize (H eq_refl).
  destruct (Wiki.start_outcome world) as [|[cls msg|cls msg]|];
    simpl in H; try contradiction; reflexivity.
Qed.

Lemma startup_settles :
  (Wiki.scheduler_enabled environ = true -> settles (Wiki.start_outcome world)) ->
  startup settings environ world =
  ({| journal := startup_records settings environ world;
      ready := [scheduled];
      tasks := [];
      lifespan_gen := GEN_SUSPENDED |}, Done tt).
Proof.
  intros H. rewrite startup_run, (scheduler_block_settles H). reflexivity.
Qed.

Lemma run_ready_idle (p : process) : ready p = [] -> run_ready world p = p.
Proof.
  destruct p as [j r t g]; simpl; intros ->. reflexivity.
Qed.

Lemma run_ready_one (p : process) load_initial_data sync_mode :
  ready p = [InitializeGraphiti load_initial_data sync_mode] ->
  run_ready world p =
  {| journal := journal p
                ++ fst (initializer_block world load_initial_data sync_mode);
     ready := [];
     tasks := tasks p
              ++ [(InitializeGraphiti load_initial_data sync_mode,
                   task_state_of
                     (snd (initializer_block world load_initial_data
                             sync_mode)))];
     lifespan_gen := lifespan_gen p |}.
Proof.
  intros H. unfold run_ready. rewrite H. simpl.
  unfold step_task, run_coroutine.
  rewrite initialize_graphiti_run. reflexivity.
Qed.

Lemma serve_idle (turns : nat) (p : process) :
  ready p = [] -> serve world turns p = p.
Proof.
  intros H. unfold serve.
  induction turns as [|n IH]; simpl; [reflexivity|].
  rewrite IH. now apply run_ready_idle.
Qed.

Lemma serve_one (turns : nat) (p : process) load_initial_data sync_mode :
  ready p = [InitializeGraphiti load_initial_data sync_mode] ->
  serve world (S turns) p = run_ready world p.
Proof.
  intros H. unfold serve. rewrite Nat.iter_succ_r.
  apply (serve_idle turns). now rewrite (run_ready_one _ _ _ H).
Qed.

Lemma shutdown_serving (p : process) :
  serving_ready p ->
  shutdown settings environ world p =
  ({| journal := journal p ++ fst (shutdown_block world);
      ready := ready p;
      tasks := tasks p;
      lifespan_gen := gen_after (snd (shutdown_block world)) GEN_CLOSED |},
   match snd (shutdown_block world) with
   | Done _ => Done false
   | Raised e => Raised e
   | Blocked => Blocked
   end).
Proof.
  unfold serving_ready, shutdown, aexit, anext. intros ->.
  rewrite lifespan_shutdown_run; simpl.
  destruct (snd (shutdown_block world)) as [[]| |]; reflexivity.
Qed.

Lemma shutdown_closed (p : process) :
  lifespan_gen p = GEN_CLOSED ->
  shutdown settings environ world p = (p, Done false).
Proof. unfold shutdown, aexit, anext. now intros ->. Qed.

Lemma shutdown_running (p : process) :
  lifespan_gen p = GEN_RUNNING ->
  shutdown settings environ world p = (p, Blocked).
Proof. unfold shutdown, aexit, anext. now intros ->. Qed.

End Lifecycle.

(** ** The claims on the lifecycle *)

Import Py Records Asyncio.

(** C1: for every configuration, the startup path reaches the [yield] of
    [lifespan] (the process is ready to serve) whatever the index
    initializer does, one that never returns included: the initializer is
    only queued, nothing of it has run when the [yield] is reached, and the
    state reached does not depend on its behaviour.  The one call the
    startup path does wait for is the synchronous start of the scheduler,
    when it is enabled; it is assumed to come back. *)
Theorem startup_reaches_yield_without_waiting_for_initialize :
  forall settings environ world,
    (Wiki.scheduler_enabled environ = true ->
     settles (Wiki.start_outcome world)) ->
    exists p,
      serving_ready p
      /\ init_calls (journal p) = 0
      /\ tasks p = []
      /\ ready p = [InitializeGraphiti (Wiki.load_initial_data environ)
                                       (Wiki.sync_mode environ)]
      /\ (forall behaviour,
            startup settings environ (Wiki.with_init_outcome world behaviour)
            = (p, Done tt))
      /\ startup settings environ
           (Wiki.with_init_outcome world (fun _ _ => NeverReturns))
         = (p, Done tt).
Proof.
  intros settings environ world H.
  eexists. repeat split.
  5: { intros behaviour.
       rewrite startup_settles by exact H.
       unfold startup_records, scheduler_block; simpl. reflexivity. }
  5: { rewrite startup_settles by exact H.
       unfold startup_records, scheduler_block; simpl. reflexivity. }
  - reflexivity.
  - simpl. apply (startup_records_counts settings environ world).
  - reflexivity.
  - reflexivity.
Qed.

Lemma startup_reaches_yield_witness :
  (Wiki.scheduler_enabled Sample.env_live = true ->
   settles (Wiki.start_outcome Sample.world_hanging))
  /\ exists p,
       serving_ready p
       /\ init_calls (journal p) = 0
       /\ tasks p = []
       /\ ready p = [InitializeGraphiti
                       (Wiki.load_initial_data Sample.env_live)
                       (Wiki.sync_mode Sample.env_live)]
       /\ (forall behaviour,
             startup Sample.settings Sample.env_live
               (Wiki.with_init_outcome Sample.world_hanging behaviour)
             = (p, Done tt))
       /\ startup Sample.settings Sample.env_live
            (Wiki.with_init_outcome Sample.world_hanging
               (fun _ _ => NeverReturns))
          = (p, Done tt).
Proof.
  split.
  - intros _. exact I.
  - apply (startup_reaches_yield_without_waiting_for_initialize
             Sample.settings Sample.env_live Sample.world_hanging).
    intros _. exact I.
Defined.

Section Triggers.
Variable settings : Wiki.Settings.
Variable environ : gmap string string.
Variable world : Wiki.collaborators.

Let trigger (q : process) : process := fst (shutdown settings environ world q).

(** Whatever the state it is triggered in, the shutdown leaves the generator
    closed, or blocked inside its body. *)
Lemma shutdown_leaves_closed_or_running (p : process) :
  lifespan_gen (trigger p) = GEN_CLOSED
  \/ lifespan_gen (trigger p) = GEN_RUNNING.
Proof.
  unfold trigger, shutdown, aexit, anext, aclose.
  destruct (lifespan_gen p) eqn:Hg.
  - rewrite lifespan_startup_run; simpl.
    destruct (snd (scheduler_block environ world)); simpl; auto.
  - right. exact Hg.
  - rewrite lifespan_shutdown_run; simpl.
    destruct (snd (shutdown_block world)); simpl; auto.
  - left. exact Hg.
Qed.

Lemma shutdown_fixed (p : process) :
  lifespan_gen p = GEN_CLOSED \/ lifespan_gen p = GEN_RUNNING ->
  trigger p = p.
Proof.
  unfold trigger. intros [H | H].
  - now rewrite shutdown_closed.
  - now rewrite shutdown_running.
Qed.

Lemma iter_trigger_fixed (n : nat) (p : process) :
  trigger p = p -> Nat.iter n trigger p = p.
Proof.
  intros H. induction n as [|n IH]; simpl; [reflexivity|].
  now rewrite IH.
Qed.

(** Any number of triggers after the first changes nothing. *)
Lemma iter_trigger (n : nat) (p : process) :
  Nat.iter (S n) trigger p = trigger p.
Proof.
  rewrite Nat.iter_succ_r. apply iter_trigger_fixed.
  apply shutdown_fixed, shutdown_leaves_closed_or_running.
Qed.

(** The life of a process whose startup reaches the [yield]. *)
Lemma lifecycle_settles (turns triggers : nat) :
  (Wiki.scheduler_enabled environ = true ->
   settles (Wiki.start_outcome world)) ->
  lifecycle settings environ world turns triggers =
  Nat.iter triggers trigger
    (serve world turns (fst (startup settings environ world))).
Proof.
  intros H. unfold lifecycle. rewrite (startup_settles _ _ _ H). reflexivity.
Qed.

End Triggers.

(** C2: when the index initializer raises an error, whatever the error,
    [initialize_graphiti] catches it: the coroutine runs to its end, the
    failure is logged at level ERROR with the text of the error, the task
    finishes without an exception, and the process is still at the [yield]
    of [lifespan], serving.  An error is an instance of [Exception], which
    covers the runtime faults one cannot recover from ([MemoryError],
    [RecursionError], [SystemError]). *)
Theorem initializer_error_is_caught_and_logged :
  forall settings environ world cls msg,
    (Wiki.scheduler_enabled environ = true ->
     settles (Wiki.start_outcome world)) ->
    Wiki.init_outcome world
      (Wiki.load_initial_data environ) (Wiki.sync_mode environ)
    = Raises (Error cls msg) ->
    let load := Wiki.load_initial_data environ in
    let mode := Wiki.sync_mode environ in
    let failure :=
      Call (Graphiti_init load mode)
      :: (if load then [BulkLoad mode] else [])
      ++ [Log ERROR ("Graphiti initialization failed: " +:+ msg)] in
    (forall p,
       Wiki.initialize_graphiti world load mode p
       = ({| journal := journal p ++ failure;
             ready := ready p;
             tasks := tasks p;
             lifespan_gen := lifespan_gen p |}, Done tt))
    /\ exists p,
         startup settings environ world = (p, Done tt)
         /\ forall turns,
              let q := serve world (S turns) p in
              serving_ready q
              /\ tasks q = [(InitializeGraphiti load mode, Finished)]
              /\ ready q = []
              /\ journal q = journal p ++ failure.
Proof.
  intros settings environ world cls msg Hstart Hinit load mode failure.
  assert (Hblock : initializer_block world load mode = (failure, Done tt)).
  { unfold initializer_block, failure, load, mode. rewrite Hinit.
    now destruct (Wiki.load_initial_data environ). }
  split.
  - intros p. rewrite initialize_graphiti_run. now rewrite Hblock.
  - eexists. split; [apply (startup_settles _ _ _ Hstart)|].
    intros turns q. unfold q.
    rewrite (serve_one world turns _ load mode) by reflexivity.
    rewrite (run_ready_one world _ load mode) by reflexivity.
    rewrite Hblock. simpl. repeat split.
Qed.

Lemma initializer_error_witness :
  (Wiki.scheduler_enabled Sample.env_live = true ->
   settles (Wiki.start_outcome Sample.world_failing))
  /\ Wiki.init_outcome Sample.world_failing
       (Wiki.load_initial_data Sample.env_live)
       (Wiki.sync_mode Sample.env_live)
     = Raises (Error "ConnectionError" "neo4j is down")
  /\ exists p,
       startup Sample.settings Sample.env_live Sample.world_failing
       = (p, Done tt)
       /\ forall turns,
            let q := serve Sample.world_failing (S turns) p in
            serving_ready q
            /\ tasks q = [(InitializeGraphiti true "live", Finished)]
            /\ ready q = []
            /\ journal q
               = journal p
                 ++ [Call (Graphiti_init true "live"); BulkLoad "live";
                     Log ERROR "Graphiti initialization failed: neo4j is down"].
Proof.
  split; [intros _; exact I|]. split; [reflexivity|].
  exact (proj2 (initializer_error_is_caught_and_logged
                  Sample.settings Sample.env_live Sample.world_failing
                  "ConnectionError" "neo4j is down"
                  (fun _ => I) eq_refl)).
Defined.

(** The state a whole life ends in, when the startup reaches the [yield]. *)
Lemma lifecycle_run settings environ world (turns triggers : nat) :
  (Wiki.scheduler_enabled environ = true ->
   settles (Wiki.start_outcome world)) ->
  let load := Wiki.load_initial_data environ in
  let mode := Wiki.sync_mode environ in
  lifecycle settings environ world turns triggers =
  {| journal :=
       startup_records settings environ world
       ++ match turns with
          | 0 => []
          | S _ => fst (initializer_block world load mode)
          end
       ++ match triggers with
          | 0 => []
          | S _ => fst (shutdown_block world)
          end;
     ready :=
       match turns with
       | 0 => [InitializeGraphiti load mode]
       | S _ => []
       end;
     tasks :=
       match turns with
       | 0 => []
       | S _ => [(InitializeGraphiti load mode,
                  task_state_of (snd (initializer_block world load mode)))]
       end;
     lifespan_gen :=
       match triggers with
       | 0 => GEN_SUSPENDED
       | S _ => gen_after (snd (shutdown_block world)) GEN_CLOSED
       end |}.
Proof.
  intros H load mode.
  rewrite (lifecycle_settles _ _ _ _ _ H), (startup_settles _ _ _ H).
  cbn [fst].
  destruct turns as [|turns].
  - change (serve world 0 ?p) with p.
    destruct triggers as [|n].
    + simpl. now rewrite app_nil_r.
    + rewrite iter_trigger, shutdown_serving by reflexivity. reflexivity.
  - rewrite (serve_one world turns _ load mode) by reflexivity.
    rewrite (run_ready_one world _ load mode) by reflexivity.
    destruct triggers as [|n].
    + simpl. now rewrite app_nil_r.
    + rewrite iter_trigger, shutdown_serving by reflexivity.
      simpl. now rewrite <- app_assoc.
Qed.

(** C3: for every configuration, the all-defaults one included, the index
    initializer is queued as a background task by the startup path, which
    calls nothing of it; the event loop then calls it exactly once, and
    whatever that call does, no later turn of the loop and no shutdown
    calls it again.  With nothing set the call is made with the load flag
    off and the mode "initial". *)
Theorem initialize_invoked_exactly_once_in_background :
  forall settings world,
    (forall environ,
       (Wiki.scheduler_enabled environ = true ->
        settles (Wiki.start_outcome world)) ->
       let load := Wiki.load_initial_data environ in
       let mode := Wiki.sync_mode environ in
       exists p,
         startup settings environ world = (p, Done tt)
         /\ init_calls (journal p) = 0
         /\ ready p = [InitializeGraphiti load mode]
         /\ tasks p = []
         /\ forall turns triggers,
              let life :=
                lifecycle settings environ world (S turns) triggers in
              init_calls (journal life) = 1
              /\ In (Call (Graphiti_init load mode)) (journal life)
              /\ ready life = []
              /\ length (tasks life) = 1)
    /\ (forall turns triggers,
          let life := lifecycle settings ∅ world (S turns) triggers in
          init_calls (journal life) = 1
          /\ In (Call (Graphiti_init false "initial")) (journal life)).
Proof.
  intros settings world.
  assert (General : forall environ,
    (Wiki.scheduler_enabled environ = true ->
     settles (Wiki.start_outcome world)) ->
    forall turns triggers,
      let life := lifecycle settings environ world (S turns) triggers in
      init_calls (journal life) = 1
      /\ In (Call (Graphiti_init (Wiki.load_initial_data environ)
                                 (Wiki.sync_mode environ))) (journal life)
      /\ ready life = []
      /\ length (tasks life) = 1).
  { intros environ H turns triggers life. unfold life.
    rewrite (lifecycle_run _ _ _ _ _ H). cbn [journal ready tasks].
    repeat split.
    - rewrite !init_calls_app.
      destruct (startup_records_counts settings environ world) as [-> _].
      destruct (initializer_block_counts world
                  (Wiki.load_initial_data environ) (Wiki.sync_mode environ))
        as [-> _].
      destruct triggers; [reflexivity|].
      now destruct (shutdown_block_counts world) as [-> _].
    - apply in_or_app; right. apply in_or_app; left.
      unfold initializer_block.
      destruct (Wiki.init_outcome world _ _) as [|[c m|c m]|];
        simpl; auto. }
  split.
  - intros environ H load mode.
    eexists. split; [apply (startup_settles _ _ _ H)|].
    cbn [journal ready tasks].
    split; [apply (startup_records_counts settings environ world)|].
    split; [reflexivity|]. split; [reflexivity|].
    intros turns triggers. apply (General environ H).
  - intros turns triggers life.
    assert (H : Wiki.scheduler_enabled ∅ = true ->
                settles (Wiki.start_outcome world)) by discriminate.
    destruct (General ∅ H turns triggers) as (H1 & H2 & _).
    split; [exact H1 | exact H2].
Qed.

Lemma initialize_invoked_once_witness :
  (Wiki.scheduler_enabled Sample.env_live = true ->
   settles (Wiki.start_outcome Sample.world_failing))
  /\ exists p,
       startup Sample.settings Sample.env_live Sample.world_failing
       = (p, Done tt)
       /\ init_calls (journal p) = 0
       /\ ready p = [InitializeGraphiti true "live"]
       /\ tasks p = []
       /\ forall turns triggers,
            let life :=
              lifecycle Sample.settings Sample.env_live Sample.world_failing
                (S turns) triggers in
            init_calls (journal life) = 1
            /\ In (Call (Graphiti_init true "live")) (journal life)
            /\ ready life = []
            /\ length (tasks life) = 1.
Proof.
  split; [intros _; exact I|].
  exact (proj1 (initialize_invoked_exactly_once_in_background
                  Sample.settings Sample.world_failing)
               Sample.env_live (fun _ => I)).
Defined.

(** Stop calls before and after the first shutdown trigger. *)
Lemma stop_calls_around_first_trigger settings environ world :
  (Wiki.scheduler_enabled environ = true ->
   settles (Wiki.start_outcome world)) ->
  forall turns,
    stop_calls (journal (lifecycle settings environ world turns 0)) = 0
    /\ stop_calls (journal (lifecycle settings environ world turns 1)) = 1.
Proof.
  intros H turns.
  destruct (shutdown_block_counts world) as (_ & Hstop & _).
  destruct (startup_records_counts settings environ world)
    as (_ & Hstop0 & _).
  rewrite !(lifecycle_run _ _ _ _ _ H). cbn [journal].
  rewrite !stop_calls_app, Hstop0, Hstop.
  destruct turns as [|turns]; [split; reflexivity|].
  destruct (initializer_block_counts world
              (Wiki.load_initial_data environ) (Wiki.sync_mode environ))
    as (_ & -> & _).
  split; reflexivity.
Qed.

(** C4: for every configuration, the shutdown sequence calls the stop of the
    scheduler exactly once: no stop is called before the shutdown, one has
    been called after it, and this is so when the scheduler is disabled and
    its start was never called. *)
Theorem stop_invoked_exactly_once_on_shutdown :
  forall settings environ world,
    (Wiki.scheduler_enabled environ = true ->
     settles (Wiki.start_outcome world)) ->
    (forall p,
       serving_ready p ->
       stop_calls (journal (fst (shutdown settings environ world p)))
       = S (stop_calls (journal p)))
    /\ forall turns,
         let before := lifecycle settings environ world turns 0 in
         let after := lifecycle settings environ world turns 1 in
         serving_ready before
         /\ stop_calls (journal before) = 0
         /\ stop_calls (journal after) = 1
         /\ (Wiki.scheduler_enabled environ = false ->
             start_calls (journal after) = 0).
Proof.
  intros settings environ world H.
  destruct (shutdown_block_counts world) as (_ & Hstop & _ & Hstart).
  destruct (startup_records_counts settings environ world)
    as (_ & Hstop0 & _ & Hstart0).
  split.
  - intros p Hp. rewrite (shutdown_serving _ _ _ _ Hp). cbn [fst journal].
    rewrite stop_calls_app, Hstop. lia.
  - intros turns before after. unfold before, after.
    rewrite !(lifecycle_run _ _ _ _ _ H). cbn [journal].
    split; [reflexivity|].
    rewrite !stop_calls_app, Hstop0, Hstop.
    rewrite !start_calls_app, Hstart0, Hstart.
    destruct turns as [|turns].
    + repeat split; try reflexivity. now intros ->.
    + destruct (initializer_block_counts world
                  (Wiki.load_initial_data environ) (Wiki.sync_mode environ))
        as (_ & -> & _ & ->).
      repeat split; try reflexivity. now intros ->.
Qed.

Lemma stop_invoked_once_witness :
  (Wiki.scheduler_enabled Sample.env_defaults = true ->
   settles (Wiki.start_outcome Sample.world_ok))
  /\ forall turns,
       let before :=
         lifecycle Sample.settings Sample.env_defaults Sample.world_ok
           turns 0 in
       let after :=
         lifecycle Sample.settings Sample.env_defaults Sample.world_ok
           turns 1 in
       serving_ready before
       /\ stop_calls (journal before) = 0
       /\ stop_calls (journal after) = 1
       /\ (Wiki.scheduler_enabled Sample.env_defaults = false ->
           start_calls (journal after) = 0).
Proof.
  split; [discriminate|].
  exact (proj2 (stop_invoked_exactly_once_on_shutdown
                  Sample.settings Sample.env_defaults Sample.world_ok
                  (fun H : false = true =>
                     False_ind _ (Bool.diff_false_true H)))).
Defined.

(** C5: when the stop of the scheduler raises an error during the shutdown,
    the error is caught and logged at level ERROR, and the shutdown sequence
    runs to its end: leaving [lifespan] returns normally and the generator
    is closed. *)
Theorem stop_error_is_logged_and_shutdown_completes :
  forall settings environ world cls msg p,
    serving_ready p ->
    Wiki.stop_outcome world = Raises (Error cls msg) ->
    shutdown settings environ world p =
    ({| journal :=
          journal p
          ++ [ Log INFO "Shutting down FWTX Wiki API";
               Call Stop_sync_scheduler;
               Log ERROR ("Error stopping sync scheduler: " +:+ msg) ];
        ready := ready p;
        tasks := tasks p;
        lifespan_gen := GEN_CLOSED |}, Done false).
Proof.
  intros settings environ world cls msg p Hp Hstop.
  rewrite (shutdown_serving _ _ _ _ Hp).
  unfold shutdown_block. rewrite Hstop. reflexivity.
Qed.

Lemma stop_error_witness :
  let p := fst (startup Sample.settings Sample.env_live Sample.world_failing) in
  serving_ready p
  /\ Wiki.stop_outcome Sample.world_failing
     = Raises (Error "RuntimeError" "scheduler is not running")
  /\ shutdown Sample.settings Sample.env_live Sample.world_failing p =
     ({| journal :=
           journal p
           ++ [ Log INFO "Shutting down FWTX Wiki API";
                Call Stop_sync_scheduler;
                Log ERROR
                  "Error stopping sync scheduler: scheduler is not running" ];
         ready := ready p;
         tasks := tasks p;
         lifespan_gen := GEN_CLOSED |}, Done false).
Proof.
  intros p.
  assert (Hp : serving_ready p) by reflexivity.
  split; [exact Hp|]. split; [reflexivity|].
  exact (stop_error_is_logged_and_shutdown_completes
           Sample.settings Sample.env_live Sample.world_failing
           "RuntimeError" "scheduler is not running" p Hp eq_refl).
Defined.

Lemma unset_or_false_is_disabled (environ : gmap string string) key :
  environ !! key = None \/ environ !! key = Some "false" ->
  Os.flag environ key = false.
Proof.
  unfold Os.flag, Os.getenv. now intros [-> | ->].
Qed.

(** C6: when neither the initial load nor the scheduler is enabled (each
    variable unset, set to "false", or set to anything that is not "true"),
    the process reaches the [yield] of [lifespan] and, through its whole
    life, never calls the start of the scheduler and never loads the index
    in bulk: the index initializer is still called, once, with the load flag
    off. *)
Theorem defaults_reach_ready_without_mutation :
  forall settings environ world,
    Wiki.load_initial_data environ = false ->
    Wiki.scheduler_enabled environ = false ->
    exists p,
      startup settings environ world = (p, Done tt)
      /\ serving_ready p
      /\ start_calls (journal p) = 0
      /\ init_calls (journal p) = 0
      /\ bulk_loads (journal p) = 0
      /\ ready p = [InitializeGraphiti false (Wiki.sync_mode environ)]
      /\ forall turns triggers,
           let life := lifecycle settings environ world turns triggers in
           let served := lifecycle settings environ world (S turns) triggers in
           start_calls (journal life) = 0
           /\ bulk_loads (journal life) = 0
           /\ init_calls (journal served) = 1
           /\ In (Call (Graphiti_init false (Wiki.sync_mode environ)))
                 (journal served).
Proof.
  intros settings environ world Hload Hsched.
  assert (H : Wiki.scheduler_enabled environ = true ->
              settles (Wiki.start_outcome world)) by congruence.
  destruct (startup_records_counts settings environ world)
    as (Hi0 & _ & Hb0 & Hs0).
  rewrite Hsched in Hs0.
  destruct (shutdown_block_counts world) as (Hi2 & _ & Hb2 & Hs2).
  destruct (initializer_block_counts world false (Wiki.sync_mode environ))
    as (Hi1 & _ & Hb1 & Hs1).
  eexists. split; [apply (startup_settles _ _ _ H)|].
  cbn [journal ready]. rewrite Hload.
  do 5 (split; [first [reflexivity | assumption]|]).
  intros turns triggers.
  rewrite !(lifecycle_run _ _ _ _ _ H). cbn [journal]. rewrite Hload.
  rewrite !start_calls_app, !bulk_loads_app, !init_calls_app.
  rewrite Hi0, Hb0, Hs0, Hi1.
  split; [|split; [|split]].
  - destruct turns, triggers; rewrite ?Hs1, ?Hs2; reflexivity.
  - destruct turns, triggers; rewrite ?Hb1, ?Hb2; reflexivity.
  - destruct triggers; rewrite ?Hi2; reflexivity.
  - apply in_or_app; right. apply in_or_app; left.
    unfold initializer_block.
    destruct (Wiki.init_outcome world _ _) as [|[c m|c m]|]; simpl; auto.
Qed.

Lemma defaults_witness :
  Wiki.load_initial_data Sample.env_defaults = false
  /\ Wiki.scheduler_enabled Sample.env_defaults = false
  /\ exists p,
       startup Sample.settings Sample.env_defaults Sample.world_ok
       = (p, Done tt)
       /\ serving_ready p
       /\ start_calls (journal p) = 0
       /\ init_calls (journal p) = 0
       /\ bulk_loads (journal p) = 0
       /\ ready p = [InitializeGraphiti false
                       (Wiki.sync_mode Sample.env_defaults)]
       /\ forall turns triggers,
            let life :=
              lifecycle Sample.settings Sample.env_defaults Sample.world_ok
                turns triggers in
            let served :=
              lifecycle Sample.settings Sample.env_defaults Sample.world_ok
                (S turns) triggers in
            start_calls (journal life) = 0
            /\ bulk_loads (journal life) = 0
            /\ init_calls (journal served) = 1
            /\ In (Call (Graphiti_init false
                           (Wiki.sync_mode Sample.env_defaults)))
                  (journal served).
Proof.
  split; [reflexivity|]. split; [reflexivity|].
  exact (defaults_reach_ready_without_mutation
           Sample.settings Sample.env_defaults Sample.world_ok
           eq_refl eq_refl).
Defined.

(** C7: when the scheduler is enabled and its start raises an error, the
    error is caught and logged at level ERROR, the record that the scheduler
    has started is not written, and the startup path goes on to the [yield]
    of [lifespan]: the process serves, with the index initializer queued. *)
Theorem scheduler_start_error_is_logged_and_startup_continues :
  forall settings environ world cls msg,
    Wiki.scheduler_enabled environ = true ->
    Wiki.start_outcome world = Raises (Error cls msg) ->
    exists p,
      startup settings environ world = (p, Done tt)
      /\ serving_ready p
      /\ journal p
         = banner settings ++ graphiti_block environ
           ++ [ Log INFO "Starting data sync scheduler...";
                Call Start_sync_scheduler;
                Log ERROR ("Failed to start sync scheduler: " +:+ msg) ]
      /\ ready p = [InitializeGraphiti (Wiki.load_initial_data environ)
                                       (Wiki.sync_mode environ)].
Proof.
  intros settings environ world cls msg Hsched Hstart.
  assert (H : Wiki.scheduler_enabled environ = true ->
              settles (Wiki.start_outcome world)).
  { intros _. now rewrite Hstart. }
  eexists. split; [apply (startup_settles _ _ _ H)|].
  split; [reflexivity|]. split; [|reflexivity].
  cbn [journal]. unfold startup_records, scheduler_block.
  now rewrite Hsched, Hstart.
Qed.

Lemma scheduler_start_error_witness :
  Wiki.scheduler_enabled Sample.env_live = true
  /\ Wiki.start_outcome Sample.world_failing
     = Raises (Error "RuntimeError" "no job store")
  /\ exists p,
       startup Sample.settings Sample.env_live Sample.world_failing
       = (p, Done tt)
       /\ serving_ready p
       /\ journal p
          = banner Sample.settings ++ graphiti_block Sample.env_live
            ++ [ Log INFO "Starting data sync scheduler...";
                 Call Start_sync_scheduler;
                 Log ERROR "Failed to start sync scheduler: no job store" ]
       /\ ready p = [InitializeGraphiti true "live"].
Proof.
  split; [reflexivity|]. split; [reflexivity|].
  exact (scheduler_start_error_is_logged_and_startup_continues
           Sample.settings Sample.env_live Sample.world_failing
           "RuntimeError" "no job store" eq_refl eq_refl).
Defined.

(** C8: triggering the shutdown a second time changes nothing: the process
    is left exactly as the first trigger left it, so that after two
    triggers, or any number of them, the stop of the scheduler has been
    called once. *)
Theorem shutdown_trigger_is_idempotent :
  forall settings environ world,
    (forall p,
       let once := fst (shutdown settings environ world p) in
       fst (shutdown settings environ world once) = once)
    /\ (forall p,
          serving_ready p ->
          let once := fst (shutdown settings environ world p) in
          let twice := fst (shutdown settings environ world once) in
          twice = once
          /\ stop_calls (journal twice) = S (stop_calls (journal p)))
    /\ (forall turns n,
          lifecycle settings environ world turns (S n)
          = lifecycle settings environ world turns 1)
    /\ ((Wiki.scheduler_enabled environ = true ->
         settles (Wiki.start_outcome world)) ->
        forall turns n,
          stop_calls (journal (lifecycle settings environ world turns (S n)))
          = 1).
Proof.
  intros settings environ world.
  assert (Fixed : forall p,
            let once := fst (shutdown settings environ world p) in
            fst (shutdown settings environ world once) = once).
  { intros p once. apply shutdown_fixed.
    apply shutdown_leaves_closed_or_running. }
  assert (Same : forall turns n,
            lifecycle settings environ world turns (S n)
            = lifecycle settings environ world turns 1).
  { intros turns n. unfold lifecycle.
    destruct (startup settings environ world) as [p [[]| |]];
      try reflexivity.
    rewrite (iter_trigger settings environ world n).
    reflexivity. }
  split; [exact Fixed|]. split; [|split; [exact Same|]].
  - intros p Hp once twice. split; [apply Fixed|].
    pose proof (Fixed p) as Hf. cbv zeta in Hf.
    unfold twice, once. rewrite Hf.
    rewrite (shutdown_serving _ _ _ _ Hp). cbn [fst journal].
    rewrite stop_calls_app.
    destruct (shutdown_block_counts world) as (_ & -> & _). lia.
  - intros H turns n. rewrite Same.
    destruct (stop_calls_around_first_trigger settings environ world
                H turns) as [_ Hone].
    exact Hone.
Qed.

Lemma shutdown_trigger_witness :
  let p := fst (startup Sample.settings Sample.env_live Sample.world_ok) in
  serving_ready p
  /\ (let once :=
        fst (shutdown Sample.settings Sample.env_live Sample.world_ok p) in
      let twice :=
        fst (shutdown Sample.settings Sample.env_live Sample.world_ok once) in
      twice = once
      /\ stop_calls (journal twice) = S (stop_calls (journal p))).
Proof.
  intros p.
  assert (Hp : serving_ready p) by reflexivity.
  split; [exact Hp|].
  exact (proj1 (proj2 (shutdown_trigger_is_idempotent
                         Sample.settings Sample.env_live Sample.world_ok))
               p Hp).
Defined.

(** C9, as it is worded, fails: a [SYNC_MODE] that is set to something other
    than "initial" or "live" does not fall back to "initial".  With
    [LOAD_INITIAL_DATA=true] and [SYNC_MODE=bogus] the mode [lifespan] reads
    is "bogus", and it is the mode the index initializer is queued with and
    called with. *)
Lemma unrecognized_sync_mode_is_passed_through :
  Wiki.load_initial_data Sample.env_bogus = true
  /\ Sample.env_bogus !! "SYNC_MODE" = Some "bogus"
  /\ Wiki.sync_mode Sample.env_bogus = "bogus"
  /\ ready (fst (startup Sample.settings Sample.env_bogus Sample.world_ok))
     = [InitializeGraphiti true "bogus"]
  /\ In (Call (Graphiti_init true "bogus"))
        (journal (lifecycle Sample.settings Sample.env_bogus Sample.world_ok
                    1 1))
  /\ ~ (forall environ : gmap string string,
          Wiki.load_initial_data environ = true ->
          (environ !! "SYNC_MODE" = None
           \/ exists v, environ !! "SYNC_MODE" = Some v
                        /\ v <> "initial" /\ v <> "live") ->
          Wiki.sync_mode environ = "initial").
Proof.
  split; [reflexivity|]. split; [reflexivity|]. split; [reflexivity|].
  split; [reflexivity|]. split; [vm_compute; tauto|].
  intros H.
  specialize (H Sample.env_bogus eq_refl).
  assert (Hbogus : Wiki.sync_mode Sample.env_bogus = "initial").
  { apply H. right. exists "bogus".
    split; [reflexivity|]. split; discriminate. }
  discriminate Hbogus.
Qed.

(** C9, amended: the selection of what the index initializer is started
    with is a total function of the environment and cannot fail: whatever
    the environment, the coroutine is queued with the two values read.  The
    load flag is on only for a [LOAD_INITIAL_DATA] that is "true" up to
    case; unset or set to anything else, it is off.  The mode is "initial"
    when [SYNC_MODE] is unset; when it is set, the mode is its value as it
    is, recognized or not. *)
Theorem intent_selection_is_total_with_defaults :
  forall settings environ world,
    let load := Wiki.load_initial_data environ in
    let mode := Wiki.sync_mode environ in
    ready (fst (startup settings environ world))
    = [InitializeGraphiti load mode]
    /\ (environ !! "LOAD_INITIAL_DATA" = None -> load = false)
    /\ (forall v,
          environ !! "LOAD_INITIAL_DATA" = Some v ->
          ~ Str.equal_ignoring_case v "true" -> load = false)
    /\ (forall v,
          environ !! "LOAD_INITIAL_DATA" = Some v ->
          Str.equal_ignoring_case v "true" -> load = true)
    /\ (environ !! "SYNC_MODE" = None -> mode = "initial")
    /\ (forall v, environ !! "SYNC_MODE" = Some v -> mode = v).
Proof.
  intros settings environ world load mode.
  split; [now rewrite startup_run|].
  unfold load, mode, Wiki.load_initial_data, Wiki.sync_mode, Os.flag,
    Os.getenv.
  split; [now intros ->|].
  split; [|split; [|split]].
  - intros v -> Hv.
    destruct (Str.is_true_literal v) eqn:E; [|reflexivity].
    now apply is_true_literal_spec in E.
  - intros v -> Hv. now apply is_true_literal_spec.
  - now intros ->.
  - now intros v ->.
Qed.

Lemma intent_selection_witness :
  Sample.env_bogus !! "LOAD_INITIAL_DATA" = Some "true"
  /\ Str.equal_ignoring_case "true" "true"
  /\ Sample.env_bogus !! "SYNC_MODE" = Some "bogus"
  /\ Sample.env_defaults !! "SYNC_MODE" = None
  /\ Sample.env_defaults !! "LOAD_INITIAL_DATA" = None
  /\ Wiki.load_initial_data Sample.env_bogus = true
  /\ Wiki.sync_mode Sample.env_bogus = "bogus"
  /\ Wiki.load_initial_data Sample.env_defaults = false
  /\ Wiki.sync_mode Sample.env_defaults = "initial".
Proof.
  assert (Hload : Sample.env_bogus !! "LOAD_INITIAL_DATA" = Some "true")
    by reflexivity.
  assert (Hcase : Str.equal_ignoring_case "true" "true")
    by (simpl; unfold Str.same_char_ignoring_case; tauto).
  assert (Hmode : Sample.env_bogus !! "SYNC_MODE" = Some "bogus")
    by reflexivity.
  assert (Hnomode : Sample.env_defaults !! "SYNC_MODE" = None)
    by reflexivity.
  assert (Hnoload : Sample.env_defaults !! "LOAD_INITIAL_DATA" = None)
    by reflexivity.
  pose proof (intent_selection_is_total_with_defaults
                Sample.settings Sample.env_bogus Sample.world_ok)
    as (_ & _ & _ & Hon & _ & Hset).
  pose proof (intent_selection_is_total_with_defaults
                Sample.settings Sample.env_defaults Sample.world_ok)
    as (_ & Hoff & _ & _ & Hunset & _).
  split; [exact Hload|]. split; [exact Hcase|]. split; [exact Hmode|].
  split; [exact Hnomode|]. split; [exact Hnoload|].
  split; [exact (Hon "true" Hload Hcase)|].
  split; [exact (Hset "bogus" Hmode)|].
  split; [exact (Hoff Hnoload) | exact (Hunset Hnomode)].
Defined.

Lemma flag_enabled_witness :
  Wiki.load_initial_data (<["LOAD_INITIAL_DATA" := "TRUE"]> Sample.env_defaults)
  = true
  /\ Wiki.scheduler_enabled
       (<["ENABLE_SYNC_SCHEDULER" := "True"]> Sample.env_defaults) = true.
Proof.
  split.
  - apply (proj1 (flag_enabled_iff_true_ignoring_case
                    Sample.env_defaults "TRUE")).
    simpl. unfold Str.same_char_ignoring_case, Str.is_upper. simpl.
    repeat split; first [now left | right; left; split; reflexivity].
  - apply (proj1 (proj2 (flag_enabled_iff_true_ignoring_case
                           Sample.env_defaults "True"))).
    simpl. unfold Str.same_char_ignoring_case, Str.is_upper. simpl.
    repeat split; first [now left | right; left; split; reflexivity].
Defined.

(** ** [strip] and [split] *)

Section Strings.
Import Text.

Lemma string_strong_ind (P : string -> Prop) :
  (forall s, (forall t, String.length t < String.length s -> P t) -> P s) ->
  forall s, P s.
Proof.
  intros H s.
  assert (G : forall n t, String.length t < n -> P t).
  { induction n as [|n IH]; intros t Ht; [lia|].
    apply H. intros u Hu. apply IH. lia. }
  apply (G (S (String.length s))). lia.
Qed.

Lemma lstrip_eq (s : string) :
  lstrip s =
  match s with
  | EmptyString => EmptyString
  | String c s1 =>
      if is_space1 c then lstrip s1
      else
        match s1 with
        | EmptyString => s
        | String d s2 =>
            if is_space2 c d then lstrip s2
            else
              match s2 with
              | EmptyString => s
              | String e s3 => if is_space3 c d e then lstrip s3 else s
              end
        end
  end.
Proof. destruct s; reflexivity. Qed.

Lemma all_space_eq (s : string) :
  all_space s =
  match s with
  | EmptyString => true
  | String c s1 =>
      if is_space1 c then all_space s1
      else
        match s1 with
        | EmptyString => false
        | String d s2 =>
            if is_space2 c d then all_space s2
            else
              match s2 with
              | EmptyString => false
              | String e s3 => is_space3 c d e && all_space s3
              end
        end
  end.
Proof. destruct s; reflexivity. Qed.

Lemma rstrip_eq (c : ascii) (s1 : string) :
  rstrip (String c s1) =
  if all_space (String c s1) then EmptyString else String c (rstrip s1).
Proof. reflexivity. Qed.

(** Case analysis on how a string starts, as [lstrip] and [all_space] look
    at it. *)
Ltac by_start s IH :=
  induction s as [s IH] using string_strong_ind;
  destruct s as [|?c [|?d [|?e ?s3]]].

Ltac shorter := cbn [String.length]; lia.

(** What [lstrip] returns does not start with white space. *)
Lemma lstrip_starts (s : string) : starts_with_space (lstrip s) = false.
Proof.
  by_start s IH; rewrite lstrip_eq.
  - reflexivity.
  - destruct (is_space1 c) eqn:E1; [reflexivity|].
    cbn [starts_with_space]. now rewrite E1.
  - destruct (is_space1 c) eqn:E1; [apply IH; shorter|].
    destruct (is_space2 c d) eqn:E2; [reflexivity|].
    cbn [starts_with_space]. now rewrite E1, E2.
  - destruct (is_space1 c) eqn:E1; [apply IH; shorter|].
    destruct (is_space2 c d) eqn:E2; [apply IH; shorter|].
    destruct (is_space3 c d e) eqn:E3; [apply IH; shorter|].
    cbn [starts_with_space]. now rewrite E1, E2, E3.
Qed.

(** A string that does not start with white space is left as it is. *)
Lemma lstrip_fix (s : string) : starts_with_space s = false -> lstrip s = s.
Proof.
  destruct s as [|c [|d [|e s3]]]; cbn [starts_with_space]; intros H;
    rewrite lstrip_eq; try reflexivity.
  - rewrite orb_false_r in H. now rewrite H.
  - apply orb_false_elim in H as [E1 H]. rewrite orb_false_r in H.
    now rewrite E1, H.
  - apply orb_false_elim in H as [E1 H]. apply orb_false_elim in H as [E2 E3].
    now rewrite E1, E2, E3.
Qed.

Lemma contains_lstrip (x : ascii) (s : string) :
  contains x (lstrip s) = true -> contains x s = true.
Proof.
  by_start s IH; rewrite lstrip_eq; try easy.
  - destruct (is_space1 c); [discriminate | easy].
  - destruct (is_space1 c).
    { intros H. apply IH in H; [|shorter].
      cbn [contains] in *. rewrite H. apply orb_true_r. }
    destruct (is_space2 c d); [discriminate | easy].
  - destruct (is_space1 c).
    { intros H. apply IH in H; [|shorter].
      cbn [contains] in *. rewrite H. apply orb_true_r. }
    destruct (is_space2 c d).
    { intros H. apply IH in H; [|shorter].
      cbn [contains] in *. rewrite H. now rewrite !orb_true_r. }
    destruct (is_space3 c d e); [|easy].
    intros H. apply IH in H; [|shorter].
    cbn [contains] in *. rewrite H. now rewrite !orb_true_r.
Qed.

Lemma rstrip_all_space (s : string) : all_space s = true -> rstrip s = "".
Proof. destruct s as [|c s1]; [reflexivity|]. rewrite rstrip_eq. now intros ->. Qed.

Lemma rstrip_cons_inv (s : string) (d : ascii) (r : string) :
  rstrip s = String d r -> exists s', s = String d s' /\ r = rstrip s'.
Proof.
  destruct s as [|c s1]; [discriminate|]. rewrite rstrip_eq.
  destruct (all_space (String c s1)); [discriminate|].
  intros H. injection H as -> <-. now exists s1.
Qed.

(** Cutting the end of a string that does not start with white space
    gives a string that does not start with white space. *)
Lemma rstrip_starts (t : string) :
  starts_with_space t = false -> starts_with_space (rstrip t) = false.
Proof.
  destruct t as [|c s1]; [easy|].
  rewrite rstrip_eq. destruct (all_space (String c s1)); [easy|].
  cbn [starts_with_space]. intros H.
  apply orb_false_elim in H as [E1 H]. rewrite E1. cbn [orb].
  destruct (rstrip s1) as [|d r] eqn:R1; [reflexivity|].
  apply rstrip_cons_inv in R1 as (s2 & -> & ->).
  apply orb_false_elim in H as [E2 H]. rewrite E2. cbn [orb].
  destruct (rstrip s2) as [|e r] eqn:R2; [reflexivity|].
  apply rstrip_cons_inv in R2 as (s3 & -> & ->).
  exact H.
Qed.

Lemma append_nil (b : string) : "" +:+ b = b.
Proof. reflexivity. Qed.

Lemma append_cons (c : ascii) (a b : string) :
  String c a +:+ b = String c (a +:+ b).
Proof. reflexivity. Qed.

Lemma all_space_app (a b : string) :
  all_space a = true -> all_space b = true -> all_space (a +:+ b) = true.
Proof.
  intros Ha Hb. revert Ha.
  by_start a IH; intros Ha; rewrite all_space_eq in Ha;
    rewrite ?append_cons, ?append_nil.
  - exact Hb.
  - destruct (is_space1 c) eqn:E1; [|discriminate].
    rewrite all_space_eq, E1. exact Hb.
  - rewrite all_space_eq.
    destruct (is_space1 c) eqn:E1.
    { apply (IH (String d "")); [shorter | exact Ha]. }
    destruct (is_space2 c d) eqn:E2; [|discriminate].
    exact Hb.
  - rewrite all_space_eq.
    destruct (is_space1 c) eqn:E1.
    { apply (IH (String d (String e s3))); [shorter | exact Ha]. }
    destruct (is_space2 c d) eqn:E2.
    { apply (IH (String e s3)); [shorter | exact Ha]. }
    apply andb_true_iff in Ha as [E3 Ha]. rewrite E3. cbn [andb].
    apply (IH s3); [shorter | exact Ha].
Qed.

(** What [rstrip] cuts is white space. *)
Lemma rstrip_decompose (s : string) :
  exists w, s = rstrip s +:+ w /\ all_space w = true.
Proof.
  induction s as [|c s1 (w & Hs & Hw)]; [now exists ""|].
  rewrite rstrip_eq. destruct (all_space (String c s1)) eqn:E.
  - now exists (String c s1).
  - exists w. split; [|exact Hw]. rewrite append_cons. now rewrite <- Hs.
Qed.

Lemma rstrip_idem (s : string) : rstrip (rstrip s) = rstrip s.
Proof.
  induction s as [|c s1 IH]; [reflexivity|].
  rewrite rstrip_eq. destruct (all_space (String c s1)) eqn:E; [reflexivity|].
  rewrite rstrip_eq, IH.
  destruct (all_space (String c (rstrip s1))) eqn:E'; [|reflexivity].
  destruct (rstrip_decompose s1) as (w & Hs & Hw).
  assert (all_space (String c s1) = true); [|congruence].
  rewrite Hs, <- append_cons.
  now apply all_space_app.
Qed.

Lemma contains_rstrip (x : ascii) (s : string) :
  contains x (rstrip s) = true -> contains x s = true.
Proof.
  induction s as [|c s1 IH]; [easy|].
  rewrite rstrip_eq. destruct (all_space (String c s1)); [discriminate|].
  cbn [contains]. intros H. apply orb_true_iff in H as [H | H].
  - now rewrite H.
  - rewrite (IH H). apply orb_true_r.
Qed.

(** A stripped string is left as it is by [strip]. *)
Lemma strip_idem (s : string) : strip (strip s) = strip s.
Proof.
  unfold strip.
  rewrite (lstrip_fix (rstrip (lstrip s))).
  - apply rstrip_idem.
  - apply rstrip_starts, lstrip_starts.
Qed.

Lemma contains_strip (x : ascii) (s : string) :
  contains x (strip s) = true -> contains x s = true.
Proof. intros H. now apply contains_lstrip, contains_rstrip. Qed.

Lemma all_space_lstrip (s : string) : all_space (lstrip s) = all_space s.
Proof.
  by_start s IH; rewrite lstrip_eq, (all_space_eq (String _ _)) ||
                 reflexivity.
  - destruct (is_space1 c) eqn:E1; [reflexivity|].
    rewrite all_space_eq. now rewrite E1.
  - destruct (is_space1 c) eqn:E1; [apply IH; shorter|].
    destruct (is_space2 c d) eqn:E2; [reflexivity|].
    rewrite all_space_eq. now rewrite E1, E2.
  - destruct (is_space1 c) eqn:E1; [apply IH; shorter|].
    destruct (is_space2 c d) eqn:E2; [apply IH; shorter|].
    destruct (is_space3 c d e) eqn:E3; [apply IH; shorter|].
    rewrite all_space_eq. now rewrite E1, E2, E3.
Qed.

(** The strings [strip] empties are the strings of white space. *)
Lemma strip_empty_iff (s : string) : strip s = "" <-> all_space s = true.
Proof.
  unfold strip. rewrite <- (all_space_lstrip s).
  destruct (lstrip s) as [|c t]; [easy|].
  rewrite rstrip_eq. destruct (all_space (String c t)); easy.
Qed.

End Strings.

Section Splitting.
Import Text.

Lemma split_not_nil (sep : ascii) (s : string) : split sep s <> [].
Proof.
  destruct s as [|c s1]; cbn [split]; [easy|].
  destruct (Ascii.eqb c sep); [easy|].
  destruct (split sep s1); easy.
Qed.

(** No piece of a split contains the separator. *)
Lemma split_pieces (sep : ascii) (s : string) :
  Forall (fun piece => contains sep piece = false) (split sep s).
Proof.
  induction s as [|c s1 IH]; cbn [split].
  - now repeat constructor.
  - destruct (Ascii.eqb c sep) eqn:E; [now constructor|].
    destruct (split sep s1) as [|piece pieces].
    + repeat constructor. cbn [contains]. now rewrite E.
    + inversion IH as [|? ? Hp Hps]; subst.
      constructor; [|exact Hps]. cbn [contains]. now rewrite E, Hp.
Qed.

Lemma split_one (sep : ascii) (x : string) :
  contains sep x = false -> split sep x = [x].
Proof.
  induction x as [|c x IH]; [reflexivity|].
  cbn [contains split]. intros H. apply orb_false_elim in H as [E H].
  now rewrite E, (IH H).
Qed.

Lemma split_app (sep : ascii) (x r : string) :
  contains sep x = false ->
  split sep (x +:+ String sep r) = x :: split sep r.
Proof.
  induction x as [|c x IH].
  - intros _. rewrite append_nil. cbn [split]. now rewrite Ascii.eqb_refl.
  - cbn [contains]. intros H. apply orb_false_elim in H as [E H].
    rewrite append_cons. cbn [split]. now rewrite E, (IH H).
Qed.

(** Splitting what [join] made gives the pieces back. *)
Lemma split_join (sep : ascii) (pieces : list string) :
  pieces <> [] ->
  Forall (fun piece => contains sep piece = false) pieces ->
  split sep (join sep pieces) = pieces.
Proof.
  induction pieces as [|x rest IH]; [easy|].
  intros _ H. inversion H as [|? ? Hx Hrest]; subst.
  destruct rest as [|y rest].
  - cbn [join]. now apply split_one.
  - change (join sep (x :: y :: rest))
      with (x +:+ String sep (join sep (y :: rest))).
    rewrite (split_app _ _ _ Hx). f_equal. now apply IH.
Qed.

End Splitting.

(** ** The application object *)

Section Application.
Import Text.

Lemma truthy_iff (s : string) : truthy s = true <-> s <> "".
Proof. destruct s; cbn; split; easy. Qed.

Lemma origins_set (settings : Wiki.Settings) :
  Wiki.ALLOWED_ORIGINS settings <> "" ->
  App.origins settings =
  List.map strip
    (List.filter (fun origin => truthy (strip origin))
       (split "," (Wiki.ALLOWED_ORIGINS settings))).
Proof.
  intros H. unfold App.origins.
  now rewrite (proj2 (truthy_iff _) H).
Qed.

(** Every origin handed to the CORS middleware is a non-empty string that
    [strip] leaves as it is (no white space before or after it) and that
    contains no comma. *)
Theorem origins_are_trimmed :
  forall (settings : Wiki.Settings) (origin : string),
    In origin (App.allow_origins (App.cors settings)) ->
    origin <> ""
    /\ strip origin = origin
    /\ starts_with_space origin = false
    /\ contains "," origin = false.
Proof.
  intros settings origin. cbn [App.allow_origins App.cors].
  unfold App.origins.
  destruct (truthy (Wiki.ALLOWED_ORIGINS settings)).
  - intros H. apply in_map_iff in H as (piece & <- & H).
    apply List.filter_In in H as [Hin Hne].
    split; [now apply truthy_iff|]. split; [apply strip_idem|].
    split; [apply rstrip_starts, lstrip_starts|].
    pose proof (split_pieces "," (Wiki.ALLOWED_ORIGINS settings)) as Hp.
    rewrite List.Forall_forall in Hp. specialize (Hp piece Hin).
    destruct (contains "," (strip piece)) eqn:E; [|reflexivity].
    apply contains_strip in E. congruence.
  - intros [<- | []]. repeat split. discriminate.
Qed.

Lemma trimmed_origins_witness :
  In "http://b.org"
     (App.allow_origins
        (App.cors (Fixture.with_origins " https://a.com , http://b.org,, ")))
  /\ strip "http://b.org" = "http://b.org"
  /\ contains "," "http://b.org" = false.
Proof.
  assert (H : In "http://b.org"
                (App.allow_origins
                   (App.cors (Fixture.with_origins
                                " https://a.com , http://b.org,, "))))
    by (vm_compute; tauto).
  split; [exact H|].
  destruct (origins_are_trimmed _ _ H) as (_ & Hs & _ & Hc).
  split; [exact Hs | exact Hc].
Defined.

(** Round trip: a non-empty list of clean origins written with commas in
    between is read back as it is. *)
Theorem origins_of_joined_list :
  forall (settings : Wiki.Settings) (wanted : list string),
    wanted <> [] ->
    Forall App.clean_origin wanted ->
    Wiki.ALLOWED_ORIGINS settings = join "," wanted ->
    App.allow_origins (App.cors settings) = wanted.
Proof.
  intros settings wanted Hne Hclean Hset. cbn [App.allow_origins App.cors].
  assert (Hnonempty : Wiki.ALLOWED_ORIGINS settings <> "").
  { rewrite Hset. destruct wanted as [|x rest]; [easy|].
    inversion Hclean as [|? ? (Hx & _) _]; subst.
    destruct x as [|c x]; [easy|]. destruct rest; cbn [join]; easy. }
  rewrite (origins_set _ Hnonempty), Hset, split_join; [|exact Hne|].
  - clear Hne Hset Hnonempty.
    induction Hclean as [|x rest (Hx & Hs & _) _ IH]; [reflexivity|].
    cbn [List.filter]. rewrite Hs, (proj2 (truthy_iff x) Hx).
    cbn [List.map]. now rewrite Hs, IH.
  - eapply List.Forall_impl; [|exact Hclean]. now intros x (_ & _ & Hc).
Qed.

Lemma joined_origins_witness :
  ["https://a.com"; "http://b.org:8080"] <> []
  /\ Wiki.ALLOWED_ORIGINS
       (Fixture.with_origins "https://a.com,http://b.org:8080")
     = join "," ["https://a.com"; "http://b.org:8080"]
  /\ App.allow_origins
       (App.cors (Fixture.with_origins "https://a.com,http://b.org:8080"))
     = ["https://a.com"; "http://b.org:8080"].
Proof.
  assert (Hne : ["https://a.com"; "http://b.org:8080"] <> [] :> list string)
    by discriminate.
  assert (Hclean : Forall App.clean_origin ["https://a.com"; "http://b.org:8080"]).
  { repeat constructor; discriminate. }
  split; [exact Hne|]. split; [reflexivity|].
  exact (origins_of_joined_list
           (Fixture.with_origins "https://a.com,http://b.org:8080")
           _ Hne Hclean eq_refl).
Defined.

End Application.

Section Middleware.
Import Text.

Lemma filter_nil_iff {A} (f : A -> bool) (l : list A) :
  List.filter f l = [] <-> Forall (fun x => f x = false) l.
Proof.
  induction l as [|x l IH]; cbn [List.filter].
  - split; [constructor | reflexivity].
  - destruct (f x) eqn:E.
    + split; [discriminate|]. intros H. inversion H; congruence.
    + rewrite IH. split.
      * now constructor.
      * intros H. now inversion H.
Qed.

(** The middleware is given no origin at all exactly when the setting is
    not empty and every piece between its commas is white space (or
    empty): a setting such as " , " does not fall back to the wildcard. *)
Theorem origins_empty_iff_blank_setting :
  forall settings : Wiki.Settings,
    App.allow_origins (App.cors settings) = []
    <-> (Wiki.ALLOWED_ORIGINS settings <> ""
         /\ Forall (fun piece => all_space piece = true)
                   (split "," (Wiki.ALLOWED_ORIGINS settings))).
Proof.
  intros settings. cbn [App.allow_origins App.cors].
  assert (Blank : forall l,
            Forall (fun x => truthy (strip x) = false) l
            <-> Forall (fun piece => all_space piece = true) l).
  { intros l. rewrite !List.Forall_forall.
    split; intros H x Hx; specialize (H x Hx).
    - apply strip_empty_iff. now destruct (strip x).
    - apply strip_empty_iff in H. now rewrite H. }
  split.
  - intros H.
    destruct (Wiki.ALLOWED_ORIGINS settings) as [|c s] eqn:E.
    + unfold App.origins in H. rewrite E in H. discriminate.
    + split; [easy|]. rewrite <- E in *.
      rewrite origins_set in H by (rewrite E; easy).
      apply map_eq_nil in H. apply filter_nil_iff in H.
      now apply Blank.
  - intros [Hne H]. rewrite (origins_set _ Hne).
    apply Blank, filter_nil_iff in H. now rewrite H.
Qed.

Lemma origins_empty_witness :
  App.allow_origins (App.cors (Fixture.with_origins " , ")) = [].
Proof.
  apply (proj2 (origins_empty_iff_blank_setting (Fixture.with_origins " , "))).
  split; [discriminate|]. repeat constructor.
Defined.

End Middleware.

(** ** The application object and the banner *)

Section Banner.
Import Text.

Lemma startup_journal settings environ world :
  journal (fst (startup settings environ world))
  = startup_records settings environ world.
Proof. now rewrite startup_run. Qed.

Lemma in_banner_in_startup settings environ world (ev : event) :
  In ev (banner settings) ->
  In ev (journal (fst (startup settings environ world))).
Proof.
  intros H. rewrite startup_journal. unfold startup_records.
  apply in_or_app. now left.
Qed.

(** The wildcard origin is what the middleware gets when the setting is
    empty, and the startup banner says so; when the setting is not empty
    the banner shows it, and the wildcard is allowed only if one of the
    pieces of the setting is "*" once stripped. *)
Theorem wildcard_only_by_default_or_on_request :
  forall settings environ world,
    let allowed := Wiki.ALLOWED_ORIGINS settings in
    let j := journal (fst (startup settings environ world)) in
    (allowed = "" ->
     App.allow_origins (App.cors settings) = ["*"]
     /\ In (Log INFO
              "Allowed Origins: [Not Set - Allowing all by default in middleware]")
           j)
    /\ (allowed <> "" ->
        In (Log INFO ("Allowed Origins: " +:+ allowed)) j
        /\ (In "*" (App.allow_origins (App.cors settings))
            <-> Exists (fun piece => strip piece = "*") (split "," allowed))).
Proof.
  intros settings environ world allowed j. split.
  - intros H. split.
    + cbn [App.allow_origins App.cors]. unfold App.origins.
      fold allowed. now rewrite H.
    + apply in_banner_in_startup. unfold banner. fold allowed. rewrite H.
      cbn [truthy]. apply in_or_app. left. cbn. tauto.
  - intros H. split.
    + apply in_banner_in_startup. unfold banner. fold allowed.
      rewrite (proj2 (truthy_iff _) H).
      apply in_or_app. left. cbn. tauto.
    + cbn [App.allow_origins App.cors]. rewrite (origins_set _ H).
      fold allowed. rewrite in_map_iff, List.Exists_exists. split.
      * intros (piece & Hs & Hin). apply List.filter_In in Hin as [Hin _].
        now exists piece.
      * intros (piece & Hin & Hs). exists piece. split; [exact Hs|].
        apply List.filter_In. split; [exact Hin|]. now rewrite Hs.
Qed.

Lemma wildcard_witness :
  Wiki.ALLOWED_ORIGINS (Fixture.with_origins "") = ""
  /\ Wiki.ALLOWED_ORIGINS (Fixture.with_origins "*") <> ""
  /\ App.allow_origins (App.cors (Fixture.with_origins "")) = ["*"]
  /\ In (Log INFO "Allowed Origins: *")
        (journal (fst (startup (Fixture.with_origins "*")
                         Sample.env_defaults Sample.world_ok))).
Proof.
  assert (Hne : Wiki.ALLOWED_ORIGINS (Fixture.with_origins "*") <> "")
    by discriminate.
  split; [reflexivity|]. split; [exact Hne|]. split.
  - exact (proj1 (proj1 (wildcard_only_by_default_or_on_request
                           (Fixture.with_origins "")
                           Sample.env_defaults Sample.world_ok)
                        eq_refl)).
  - exact (proj1 (proj2 (wildcard_only_by_default_or_on_request
                           (Fixture.with_origins "*")
                           Sample.env_defaults Sample.world_ok)
                        Hne)).
Defined.



End Banner.

(** ** More on the lifecycle *)

Section MoreLifecycle.
Variable settings : Wiki.Settings.
Variable environ : gmap string string.
Variable world : Wiki.collaborators.

Lemma scheduler_block_cases :
  (Wiki.scheduler_enabled environ = true ->
   settles (Wiki.start_outcome world))
  \/ snd (scheduler_block environ world) <> Done tt.
Proof.
  unfold scheduler_block.
  destruct (Wiki.scheduler_enabled environ); [|left; discriminate].
  destruct (Wiki.start_outcome world) as [|[cls msg|cls msg]|]; cbn;
    first [left; intros _; exact I | right; discriminate].
Qed.

(** A process whose startup does not reach the [yield] stays as the
    startup left it. *)
Lemma lifecycle_stopped (turns triggers : nat) :
  snd (scheduler_block environ world) <> Done tt ->
  lifecycle settings environ world turns triggers
  = fst (startup settings environ world).
Proof.
  intros H. unfold lifecycle. rewrite startup_run. cbn [fst].
  destruct (snd (scheduler_block environ world)) as [[]| |];
    [contradiction | reflexivity | reflexivity].
Qed.

End MoreLifecycle.

(** In the whole life of the process the start of the scheduler is called
    once when [ENABLE_SYNC_SCHEDULER] is on and never when it is off,
    whatever the collaborators do: it is not retried when it fails and not
    called again by the loop or by the shutdown. *)
Theorem scheduler_start_called_once_iff_enabled :
  forall settings environ world turns triggers,
    start_calls (journal (lifecycle settings environ world turns triggers))
    = if Wiki.scheduler_enabled environ then 1 else 0.
Proof.
  intros settings environ world turns triggers.
  destruct (startup_records_counts settings environ world)
    as (_ & _ & _ & Hs0).
  destruct (scheduler_block_cases environ world) as [H | H].
  - rewrite (lifecycle_run _ _ _ _ _ H). cbn [journal].
    rewrite !start_calls_app, Hs0.
    destruct (initializer_block_counts world
                (Wiki.load_initial_data environ) (Wiki.sync_mode environ))
      as (_ & _ & _ & Hs1).
    destruct (shutdown_block_counts world) as (_ & _ & _ & Hs2).
    destruct turns, triggers; rewrite ?Hs1, ?Hs2; cbn; lia.
  - rewrite (lifecycle_stopped _ _ _ _ _ H), startup_journal. exact Hs0.
Qed.

(** When the scheduler is enabled its start is called before the index
    initializer is: the journal of a life in which the loop has turned
    reads ... start ... initializer ..., in this order. *)
Theorem scheduler_start_precedes_initializer :
  forall settings environ world turns triggers,
    Wiki.scheduler_enabled environ = true ->
    settles (Wiki.start_outcome world) ->
    exists before between after,
      journal (lifecycle settings environ world (S turns) triggers)
      = before ++ Call Start_sync_scheduler :: between
        ++ Call (Graphiti_init (Wiki.load_initial_data environ)
                               (Wiki.sync_mode environ)) :: after
      /\ init_calls before = 0
      /\ init_calls between = 0
      /\ start_calls after = 0.
Proof.
  intros settings environ world turns triggers Hen Hst.
  rewrite (lifecycle_run _ _ _ _ _ (fun _ => Hst)). cbn [journal].
  unfold startup_records.
  assert (Hbanner : init_calls (banner settings ++ graphiti_block environ) = 0).
  { unfold init_calls. rewrite count_app.
    destruct (banner_counts settings is_init) as [-> _].
    now destruct (graphiti_block_counts environ is_init) as [-> _]. }
  assert (Hafter : forall j,
            start_calls j = 0 ->
            start_calls
              (j ++ match triggers with
                    | 0 => []
                    | S _ => fst (shutdown_block world)
                    end) = 0).
  { intros j Hj. rewrite start_calls_app, Hj.
    destruct triggers; [reflexivity|].
    now destruct (shutdown_block_counts world) as (_ & _ & _ & ->). }
  set (load := Wiki.load_initial_data environ).
  set (mode := Wiki.sync_mode environ).
  assert (Hinit : exists rest,
            fst (initializer_block world load mode)
            = Call (Graphiti_init load mode) :: rest
            /\ start_calls rest = 0).
  { unfold initializer_block.
    destruct (Wiki.init_outcome world load mode) as [|[c m|c m]|];
      cbn [fst]; eexists; (split; [reflexivity|]);
      destruct load; reflexivity. }
  assert (Hsched : exists record,
            fst (scheduler_block environ world)
            = [Log INFO "Starting data sync scheduler...";
               Call Start_sync_scheduler; record]
            /\ init_calls [record] = 0).
  { unfold scheduler_block. rewrite Hen.
    destruct (Wiki.start_outcome world) as [|[cls msg|cls msg]|];
      try contradiction; cbn [fst]; eexists; split; reflexivity. }
  destruct Hinit as (rest & -> & Hrest).
  destruct Hsched as (record & -> & Hrecord).
  exists (banner settings ++ graphiti_block environ
          ++ [Log INFO "Starting data sync scheduler..."]),
         [record],
         (rest ++ match triggers with
                  | 0 => []
                  | S _ => fst (shutdown_block world)
                  end).
  split; [now rewrite <- !app_assoc|].
  split; [now rewrite app_assoc, init_calls_app, Hbanner|].
  split; [exact Hrecord | now apply Hafter].
Qed.

Lemma scheduler_start_precedes_witness :
  Wiki.scheduler_enabled Sample.env_live = true
  /\ settles (Wiki.start_outcome Sample.world_failing)
  /\ exists before between after,
       journal (lifecycle Sample.settings Sample.env_live
                  Sample.world_failing 1 1)
       = before ++ Call Start_sync_scheduler :: between
         ++ Call (Graphiti_init (Wiki.load_initial_data Sample.env_live)
                                (Wiki.sync_mode Sample.env_live)) :: after
       /\ init_calls before = 0
       /\ init_calls between = 0
       /\ start_calls after = 0.
Proof.
  split; [reflexivity|]. split; [exact I|].
  exact (scheduler_start_precedes_initializer
           Sample.settings Sample.env_live Sample.world_failing 0 1
           eq_refl I).
Defined.

(** What one turn of the loop does with the queued initializer, by the
    records its body writes and the way it ends. *)
Lemma serve_initializer settings environ world :
  (Wiki.scheduler_enabled environ = true ->
   settles (Wiki.start_outcome world)) ->
  let load := Wiki.load_initial_data environ in
  let mode := Wiki.sync_mode environ in
  forall records r,
    initializer_block world load mode = (records, r) ->
    exists p,
      startup settings environ world = (p, Done tt)
      /\ forall turns,
           let q := serve world (S turns) p in
           serving_ready q
           /\ tasks q = [(InitializeGraphiti load mode, task_state_of r)]
           /\ ready q = []
           /\ journal q = journal p ++ records.
Proof.
  intros H load mode records r Hblock.
  eexists. split; [apply (startup_settles _ _ _ H)|].
  intros turns q. unfold q.
  rewrite (serve_one world turns _ load mode) by reflexivity.
  rewrite (run_ready_one world _ load mode) by reflexivity.
  rewrite Hblock. repeat split.
Qed.

(** When the index initializer returns, the task finishes, the success is
    logged at level INFO, and the record on the loaded data follows exactly
    when the load was requested; nothing is logged at level ERROR. *)
Theorem initializer_success_is_logged :
  forall settings environ world,
    (Wiki.scheduler_enabled environ = true ->
     settles (Wiki.start_outcome world)) ->
    let load := Wiki.load_initial_data environ in
    let mode := Wiki.sync_mode environ in
    Wiki.init_outcome world load mode = Returns ->
    exists p,
      startup settings environ world = (p, Done tt)
      /\ forall turns,
           let q := serve world (S turns) p in
           serving_ready q
           /\ tasks q = [(InitializeGraphiti load mode, Finished)]
           /\ ready q = []
           /\ journal q
              = journal p
                ++ (Call (Graphiti_init load mode)
                    :: (if load then [BulkLoad mode] else []))
                ++ Log INFO "Graphiti initialization completed successfully"
                   :: (if load
                       then [Log INFO ("Initial data loaded using " +:+ mode
                                       +:+ " mode")]
                       else []).
Proof.
  intros settings environ world H load mode Hinit.
  apply (serve_initializer settings environ world H _ (Done tt)).
  unfold initializer_block. fold load mode. now rewrite Hinit.
Qed.

Lemma initializer_success_witness :
  (Wiki.scheduler_enabled Sample.env_live = true ->
   settles (Wiki.start_outcome Sample.world_ok))
  /\ Wiki.init_outcome Sample.world_ok
       (Wiki.load_initial_data Sample.env_live)
       (Wiki.sync_mode Sample.env_live) = Returns
  /\ exists p,
       startup Sample.settings Sample.env_live Sample.world_ok = (p, Done tt)
       /\ forall turns,
            let q := serve Sample.world_ok (S turns) p in
            serving_ready q
            /\ tasks q = [(InitializeGraphiti true "live", Finished)]
            /\ ready q = []
            /\ journal q
               = journal p
                 ++ [Call (Graphiti_init true "live"); BulkLoad "live"]
                 ++ [Log INFO "Graphiti initialization completed successfully";
                     Log INFO "Initial data loaded using live mode"].
Proof.
  split; [intros _; exact I|]. split; [reflexivity|].
  exact (initializer_success_is_logged
           Sample.settings Sample.env_live Sample.world_ok
           (fun _ => I) eq_refl).
Defined.

(** When the index initializer never returns, its task stays waiting and
    writes neither a success nor a failure record; the process serves, and
    the shutdown still runs: it calls the stop of the scheduler and leaves
    the task as it was, neither awaited nor cancelled. *)
Theorem hanging_initializer_is_left_waiting :
  forall settings environ world,
    (Wiki.scheduler_enabled environ = true ->
     settles (Wiki.start_outcome world)) ->
    let load := Wiki.load_initial_data environ in
    let mode := Wiki.sync_mode environ in
    Wiki.init_outcome world load mode = NeverReturns ->
    exists p,
      startup settings environ world = (p, Done tt)
      /\ forall turns,
           let q := serve world (S turns) p in
           let q' := fst (shutdown settings environ world q) in
           serving_ready q
           /\ tasks q = [(InitializeGraphiti load mode, Waiting)]
           /\ journal q
              = journal p
                ++ Call (Graphiti_init load mode)
                   :: (if load then [BulkLoad mode] else [])
           /\ tasks q' = tasks q
           /\ journal q' = journal q ++ fst (shutdown_block world)
           /\ stop_calls (journal q') = 1.
Proof.
  intros settings environ world H load mode Hinit.
  assert (Hblock : initializer_block world load mode
                   = (Call (Graphiti_init load mode)
                      :: (if load then [BulkLoad mode] else []), Blocked)).
  { unfold initializer_block. now rewrite Hinit. }
  destruct (serve_initializer settings environ world H _ _ Hblock)
    as (p & Hp & Hserve).
  exists p. split; [exact Hp|].
  intros turns q q'. destruct (Hserve turns) as (Hq & Ht & _ & Hj).
  fold q in Hq, Ht, Hj.
  split; [exact Hq|]. split; [exact Ht|]. split; [exact Hj|].
  unfold q'. rewrite (shutdown_serving _ _ _ _ Hq). cbn [fst tasks journal].
  split; [reflexivity|]. split; [reflexivity|].
  rewrite Hj, !stop_calls_app.
  rewrite (startup_settles _ _ _ H) in Hp. injection Hp as <-.
  cbn [journal].
  destruct (startup_records_counts settings environ world) as (_ & -> & _).
  destruct (shutdown_block_counts world) as (_ & -> & _).
  now destruct load.
Qed.

Lemma hanging_initializer_witness :
  (Wiki.scheduler_enabled Sample.env_live = true ->
   settles (Wiki.start_outcome Sample.world_hanging))
  /\ Wiki.init_outcome Sample.world_hanging
       (Wiki.load_initial_data Sample.env_live)
       (Wiki.sync_mode Sample.env_live) = NeverReturns
  /\ exists p,
       startup Sample.settings Sample.env_live Sample.world_hanging
       = (p, Done tt)
       /\ forall turns,
            let q := serve Sample.world_hanging (S turns) p in
            let q' :=
              fst (shutdown Sample.settings Sample.env_live
                     Sample.world_hanging q) in
            serving_ready q
            /\ tasks q = [(InitializeGraphiti true "live", Waiting)]
            /\ journal q
               = journal p
                 ++ [Call (Graphiti_init true "live"); BulkLoad "live"]
            /\ tasks q' = tasks q
            /\ journal q'
               = journal q ++ fst (shutdown_block Sample.world_hanging)
            /\ stop_calls (journal q') = 1.
Proof.
  split; [intros _; exact I|]. split; [reflexivity|].
  exact (hanging_initializer_is_left_waiting
           Sample.settings Sample.env_live Sample.world_hanging
           (fun _ => I) eq_refl).
Defined.

(** An exception of the index initializer that is not an instance of
    [Exception] ([asyncio.CancelledError], [KeyboardInterrupt],
    [SystemExit]) is not handled by [initialize_graphiti]: it leaves the
    coroutine, the task fails with it, and no failure record is written. *)
Theorem initializer_signal_is_not_caught :
  forall settings environ world cls msg,
    (Wiki.scheduler_enabled environ = true ->
     settles (Wiki.start_outcome world)) ->
    let load := Wiki.load_initial_data environ in
    let mode := Wiki.sync_mode environ in
    Wiki.init_outcome world load mode = Raises (Signal cls msg) ->
    (forall p,
       snd (Wiki.initialize_graphiti world load mode p)
       = Raised (Signal cls msg))
    /\ exists p,
         startup settings environ world = (p, Done tt)
         /\ forall turns,
              let q := serve world (S turns) p in
              tasks q = [(InitializeGraphiti load mode,
                          Failed (Signal cls msg))]
              /\ journal q
                 = journal p
                   ++ Call (Graphiti_init load mode)
                      :: (if load then [BulkLoad mode] else [])
              /\ Journal.error_logs (journal q)
                 = Journal.error_logs (journal p).
Proof.
  intros settings environ world cls msg H load mode Hinit.
  assert (Hblock : initializer_block world load mode
                   = (Call (Graphiti_init load mode)
                      :: (if load then [BulkLoad mode] else []),
                      Raised (Signal cls msg))).
  { unfold initializer_block. now rewrite Hinit. }
  split.
  - intros p. rewrite initialize_graphiti_run. now rewrite Hblock.
  - destruct (serve_initializer settings environ world H _ _ Hblock)
      as (p & Hp & Hserve).
    exists p. split; [exact Hp|].
    intros turns q. destruct (Hserve turns) as (_ & Ht & _ & Hj).
    fold q in Ht, Hj.
    split; [exact Ht|]. split; [exact Hj|].
    rewrite Hj. unfold Journal.error_logs. rewrite count_app.
    destruct load; cbn; lia.
Qed.

Lemma initializer_signal_witness :
  (Wiki.scheduler_enabled Sample.env_defaults = true ->
   settles (Wiki.start_outcome Fixture.world_interrupted))
  /\ Wiki.init_outcome Fixture.world_interrupted
       (Wiki.load_initial_data Sample.env_defaults)
       (Wiki.sync_mode Sample.env_defaults)
     = Raises (Signal "CancelledError" "")
  /\ forall p,
       snd (Wiki.initialize_graphiti Fixture.world_interrupted
              false "initial" p)
       = Raised (Signal "CancelledError" "").
Proof.
  assert (H : Wiki.scheduler_enabled Sample.env_defaults = true ->
              settles (Wiki.start_outcome Fixture.world_interrupted))
    by discriminate.
  split; [exact H|]. split; [reflexivity|].
  exact (proj1 (initializer_signal_is_not_caught
                  Sample.settings Sample.env_defaults
                  Fixture.world_interrupted "CancelledError" "" H eq_refl)).
Defined.

(** An exception of the scheduler start that is not an instance of
    [Exception] is not handled by [lifespan]: it leaves the generator
    before the [yield], the process never serves, neither the success nor
    the failure of the start is logged, and since the generator is closed
    the code after the [yield] cannot run: the stop is never called. *)
Theorem scheduler_start_signal_aborts_startup :
  forall settings environ world cls msg,
    Wiki.scheduler_enabled environ = true ->
    Wiki.start_outcome world = Raises (Signal cls msg) ->
    exists p,
      startup settings environ world = (p, Raised (Signal cls msg))
      /\ lifespan_gen p = GEN_CLOSED
      /\ ~ serving_ready p
      /\ journal p
         = banner settings ++ graphiti_block environ
           ++ [ Log INFO "Starting data sync scheduler...";
                Call Start_sync_scheduler ]
      /\ shutdown settings environ world p = (p, Done false)
      /\ forall turns triggers,
           stop_calls
             (journal (lifecycle settings environ world turns triggers)) = 0.
Proof.
  intros settings environ world cls msg Hen Hst.
  assert (Hblock : scheduler_block environ world
                   = ([ Log INFO "Starting data sync scheduler...";
                        Call Start_sync_scheduler ],
                      Raised (Signal cls msg))).
  { unfold scheduler_block. now rewrite Hen, Hst. }
  eexists. split; [rewrite startup_run, Hblock; reflexivity|].
  cbn [lifespan_gen journal gen_after snd].
  split; [reflexivity|]. split; [unfold serving_ready; cbn; discriminate|].
  split; [unfold startup_records; now rewrite Hblock|].
  split; [now apply shutdown_closed|].
  intros turns triggers.
  rewrite lifecycle_stopped by (rewrite Hblock; discriminate).
  rewrite startup_journal.
  apply (startup_records_counts settings environ world).
Qed.

Lemma scheduler_start_signal_witness :
  Wiki.scheduler_enabled Fixture.env_scheduler = true
  /\ Wiki.start_outcome Fixture.world_interrupted
     = Raises (Signal "KeyboardInterrupt" "")
  /\ exists p,
       startup Sample.settings Fixture.env_scheduler
         Fixture.world_interrupted
       = (p, Raised (Signal "KeyboardInterrupt" ""))
       /\ lifespan_gen p = GEN_CLOSED
       /\ ~ serving_ready p
       /\ journal p
          = banner Sample.settings ++ graphiti_block Fixture.env_scheduler
            ++ [ Log INFO "Starting data sync scheduler...";
                 Call Start_sync_scheduler ]
       /\ shutdown Sample.settings Fixture.env_scheduler
            Fixture.world_interrupted p = (p, Done false)
       /\ forall turns triggers,
            stop_calls
              (journal (lifecycle Sample.settings Fixture.env_scheduler
                          Fixture.world_interrupted turns triggers)) = 0.
Proof.
  split; [reflexivity|]. split; [reflexivity|].
  exact (scheduler_start_signal_aborts_startup
           Sample.settings Fixture.env_scheduler Fixture.world_interrupted
           "KeyboardInterrupt" "" eq_refl eq_refl).
Defined.

(** A scheduler start that never returns blocks the startup path: unlike
    the index initializer it is called synchronously, so the [yield] is not
    reached, the process never serves, and the queued initializer is never
    stepped. *)
Theorem scheduler_start_blocks_startup :
  forall settings environ world,
    Wiki.scheduler_enabled environ = true ->
    Wiki.start_outcome world = NeverReturns ->
    exists p,
      startup settings environ world = (p, Blocked)
      /\ lifespan_gen p = GEN_RUNNING
      /\ ~ serving_ready p
      /\ ready p = [InitializeGraphiti (Wiki.load_initial_data environ)
                                       (Wiki.sync_mode environ)]
      /\ tasks p = []
      /\ forall turns triggers,
           lifecycle settings environ world turns triggers = p
           /\ init_calls (journal p) = 0
           /\ stop_calls (journal p) = 0.
Proof.
  intros settings environ world Hen Hst.
  assert (Hblock : scheduler_block environ world
                   = ([ Log INFO "Starting data sync scheduler...";
                        Call Start_sync_scheduler ], Blocked)).
  { unfold scheduler_block. now rewrite Hen, Hst. }
  eexists. split; [rewrite startup_run, Hblock; reflexivity|].
  cbn [lifespan_gen journal gen_after snd ready tasks].
  split; [reflexivity|]. split; [unfold serving_ready; cbn; discriminate|].
  split; [reflexivity|]. split; [reflexivity|].
  intros turns triggers.
  split.
  - rewrite lifecycle_stopped by (rewrite Hblock; discriminate).
    rewrite startup_run, Hblock. reflexivity.
  - destruct (startup_records_counts settings environ world)
      as (Hi & Hs & _).
    split; assumption.
Qed.

Lemma scheduler_start_blocks_witness :
  Wiki.scheduler_enabled Fixture.env_scheduler = true
  /\ Wiki.start_outcome Fixture.world_stuck = NeverReturns
  /\ exists p,
       startup Sample.settings Fixture.env_scheduler Fixture.world_stuck
       = (p, Blocked)
       /\ lifespan_gen p = GEN_RUNNING
       /\ ~ serving_ready p
       /\ ready p = [InitializeGraphiti
                       (Wiki.load_initial_data Fixture.env_scheduler)
                       (Wiki.sync_mode Fixture.env_scheduler)]
       /\ tasks p = []
       /\ forall turns triggers,
            lifecycle Sample.settings Fixture.env_scheduler
              Fixture.world_stuck turns triggers = p
            /\ init_calls (journal p) = 0
            /\ stop_calls (journal p) = 0.
Proof.
  split; [reflexivity|]. split; [reflexivity|].
  exact (scheduler_start_blocks_startup
           Sample.settings Fixture.env_scheduler Fixture.world_stuck
           eq_refl eq_refl).
Defined.

(** An exception of the scheduler stop that is not an instance of
    [Exception] is not handled by [lifespan]: it leaves the generator, which
    is closed, and no failure record is written. *)
Theorem scheduler_stop_signal_leaves_lifespan :
  forall settings environ world cls msg p,
    serving_ready p ->
    Wiki.stop_outcome world = Raises (Signal cls msg) ->
    shutdown settings environ world p =
    ({| journal :=
          journal p
          ++ [ Log INFO "Shutting down FWTX Wiki API";
               Call Stop_sync_scheduler ];
        ready := ready p;
        tasks := tasks p;
        lifespan_gen := GEN_CLOSED |}, Raised (Signal cls msg)).
Proof.
  intros settings environ world cls msg p Hp Hstop.
  rewrite (shutdown_serving _ _ _ _ Hp).
  unfold shutdown_block. rewrite Hstop. reflexivity.
Qed.

Lemma scheduler_stop_signal_witness :
  let p :=
    fst (startup Sample.settings Sample.env_defaults
           Fixture.world_interrupted) in
  serving_ready p
  /\ Wiki.stop_outcome Fixture.world_interrupted
     = Raises (Signal "SystemExit" "1")
  /\ shutdown Sample.settings Sample.env_defaults
       Fixture.world_interrupted p =
     ({| journal :=
           journal p
           ++ [ Log INFO "Shutting down FWTX Wiki API";
                Call Stop_sync_scheduler ];
         ready := ready p;
         tasks := tasks p;
         lifespan_gen := GEN_CLOSED |}, Raised (Signal "SystemExit" "1")).
Proof.
  intros p.
  assert (Hp : serving_ready p) by reflexivity.
  split; [exact Hp|]. split; [reflexivity|].
  exact (scheduler_stop_signal_leaves_lifespan
           Sample.settings Sample.env_defaults Fixture.world_interrupted
           "SystemExit" "1" p Hp eq_refl).
Defined.

(** ** What the journal shows *)

Section Levels.
Import Journal.

Lemma error_logs_app (j k : list event) :
  error_logs (j ++ k) = error_logs j + error_logs k.
Proof. apply count_app. Qed.

Lemma warning_logs_app (j k : list event) :
  warning_logs (j ++ k) = warning_logs j + warning_logs k.
Proof. apply count_app. Qed.

Lemma banner_levels settings :
  error_logs (banner settings) = 0
  /\ warning_logs (banner settings)
     = one_if (negb (truthy (Wiki.API_KEY settings))).
Proof.
  unfold banner. destruct (truthy (Wiki.API_KEY settings)); split; reflexivity.
Qed.

Lemma scheduler_block_levels environ world :
  let j := fst (scheduler_block environ world) in
  error_logs j
  = one_if (Wiki.scheduler_enabled environ && fails (Wiki.start_outcome world))
  /\ warning_logs j = 0.
Proof.
  unfold scheduler_block.
  destruct (Wiki.scheduler_enabled environ);
    [destruct (Wiki.start_outcome world) as [|[cls msg|cls msg]|]|];
    split; reflexivity.
Qed.

Lemma startup_records_levels settings environ world :
  let j := startup_records settings environ world in
  error_logs j
  = one_if (Wiki.scheduler_enabled environ && fails (Wiki.start_outcome world))
  /\ warning_logs j = one_if (negb (truthy (Wiki.API_KEY settings))).
Proof.
  cbv zeta. unfold startup_records.
  rewrite !error_logs_app, !warning_logs_app.
  destruct (banner_levels settings) as [-> ->].
  destruct (scheduler_block_levels environ world) as [-> ->].
  split; cbn; lia.
Qed.

Lemma initializer_block_levels world load mode :
  let j := fst (initializer_block world load mode) in
  error_logs j = one_if (fails (Wiki.init_outcome world load mode))
  /\ warning_logs j = 0.
Proof.
  unfold initializer_block.
  destruct load;
    destruct (Wiki.init_outcome world _ mode) as [|[cls msg|cls msg]|];
    split; reflexivity.
Qed.

Lemma shutdown_block_levels world :
  let j := fst (shutdown_block world) in
  error_logs j = one_if (fails (Wiki.stop_outcome world))
  /\ warning_logs j = 0.
Proof.
  unfold shutdown_block.
  destruct (Wiki.stop_outcome world) as [|[cls msg|cls msg]|];
    split; reflexivity.
Qed.



End Levels.

(** One ERROR record per failure: in a life in which the loop has turned
    and the shutdown has run, the records at level ERROR are as many as the
    collaborators that raised an error (the scheduler start when it is
    enabled, the index initializer, the scheduler stop).  When all of them
    return, nothing is logged at level ERROR. *)
Theorem one_error_record_per_failure :
  forall settings environ world turns triggers,
    (Wiki.scheduler_enabled environ = true ->
     settles (Wiki.start_outcome world)) ->
    Journal.error_logs
      (journal (lifecycle settings environ world (S turns) (S triggers)))
    = Journal.one_if (Wiki.scheduler_enabled environ
                      && Journal.fails (Wiki.start_outcome world))
      + Journal.one_if
          (Journal.fails
             (Wiki.init_outcome world (Wiki.load_initial_data environ)
                (Wiki.sync_mode environ)))
      + Journal.one_if (Journal.fails (Wiki.stop_outcome world)).
Proof.
  intros settings environ world turns triggers H.
  rewrite (lifecycle_run _ _ _ _ _ H). cbn [journal].
  rewrite !error_logs_app.
  destruct (startup_records_levels settings environ world) as [-> _].
  destruct (initializer_block_levels world (Wiki.load_initial_data environ)
              (Wiki.sync_mode environ)) as [-> _].
  destruct (shutdown_block_levels world) as [-> _].
  lia.
Qed.

Lemma one_error_record_witness :
  (Wiki.scheduler_enabled Sample.env_live = true ->
   settles (Wiki.start_outcome Sample.world_failing))
  /\ Journal.error_logs
       (journal (lifecycle Sample.settings Sample.env_live
                   Sample.world_failing 1 1)) = 3
  /\ Journal.error_logs
       (journal (lifecycle Sample.settings Sample.env_live
                   Sample.world_ok 1 1)) = 0.
Proof.
  split; [intros _; exact I|]. split.
  - exact (one_error_record_per_failure
             Sample.settings Sample.env_live Sample.world_failing 0 0
             (fun _ => I)).
  - exact (one_error_record_per_failure
             Sample.settings Sample.env_live Sample.world_ok 0 0
             (fun _ => I)).
Defined.

(** The only record at level WARNING is the one on the missing API key:
    whatever the environment and the collaborators, the journal of a life
    has it once when [API_KEY] is empty and has no warning otherwise. *)
Theorem warning_only_for_missing_api_key :
  forall settings environ world turns triggers,
    Journal.warning_logs
      (journal (lifecycle settings environ world turns triggers))
    = Journal.one_if (negb (truthy (Wiki.API_KEY settings))).
Proof.
  intros settings environ world turns triggers.
  destruct (startup_records_levels settings environ world) as [_ Hw].
  destruct (scheduler_block_cases environ world) as [H | H].
  - rewrite (lifecycle_run _ _ _ _ _ H). cbn [journal].
    rewrite !warning_logs_app, Hw.
    destruct (initializer_block_levels world (Wiki.load_initial_data environ)
                (Wiki.sync_mode environ)) as [_ Hi].
    destruct (shutdown_block_levels world) as [_ Hs].
    destruct turns, triggers; rewrite ?Hi, ?Hs; cbn; lia.
  - now rewrite (lifecycle_stopped _ _ _ _ _ H), startup_journal.
Qed.


